(** * UnityMCP: the Unity process manager (unity_manager.py, config.py)

    A shallow embedding of [UnityManager.execute_unity_command],
    [UnityManager.cleanup] and [MCPConfig.validate_unity_project_path],
    with the properties of the out-of-process command execution core.

    Python state is threaded explicitly: a computation is a function from
    the world (manager fields, heap of operation objects, OS process table,
    file system, clock) to an outcome and a new world, and an outcome is a
    returned value or a raised exception. A call runs from entry to return
    without another task in between; what the operating system and the
    editor decide during the call (whether the process can be created,
    whether it exits in time, what it prints) is given to the call as an
    oracle, and so are the readings of the clock. *)

From stdpp Require Import gmap strings list pretty.
From Stdlib Require Import ZArith NArith Ascii.

Open Scope Z_scope.

Set Warnings "-register-all".

(** ** Values *)

(** Python [bytes]. *)
Definition bytes := list Byte.byte.

(** What [json.loads] builds: None, bool, int, float, str, list, dict.
    A float is kept as the literal it was read from; a dict is the list of
    its items in insertion order. *)
Inductive Json : Type :=
  | JNull
  | JBool (b : bool)
  | JInt (n : Z)
  | JFloat (lit : string)
  | JStr (s : string)
  | JArr (items : list Json)
  | JObj (items : list (string * Json)).

(** ** Exceptions *)

(** The exception classes the manager raises or lets through, on
    Python 3.11, the interpreter main.py names. There
    [asyncio.TimeoutError], the class [asyncio.wait_for] raises and
    the first handler names, is the builtin [TimeoutError]: one class,
    which the operating system raises too (ETIMEDOUT). *)
Inductive exn_class : Type :=
  | ValueError
  | JSONDecodeError
  | UnicodeDecodeError
  | RecursionError
  | RuntimeError
  | TimeoutError
  | OSError
  | FileNotFoundError
  | PermissionError.

#[global] Instance exn_class_eq_dec : EqDecision exn_class.
Proof. solve_decision. Defined.

(** An exception object: its class and [str(e)]. *)
Record exn : Type := Exn { exn_cls : exn_class; exn_str : string }.

(** ** The interpreter services the manager calls *)

(** Library functions of the Python runtime, as an interface. A failing
    call gives the exception it raises. *)
Class Runtime : Type := {
  (** [b.decode()] *)
  bytes_decode : bytes -> exn + string;
  (** [s.encode()] *)
  str_encode : string -> bytes;
  (** [json.loads(s)] *)
  json_loads : string -> exn + Json;
  (** [json.dumps(v)] *)
  json_dumps : Json -> string;
  (** [str(d.timestamp())] for a clock reading [d] in microseconds *)
  timestamp_str : Z -> string;
}.

(** ** Data model *)

(** class UnityOperation(BaseModel) *)
Record UnityOperation : Type := {
  id : string;
  command : string;
  project_path : string;
  status : string;
  start_time : option Z;
  end_time : option Z;
  result : option Json;
  error : option string;
}.

(** [pathlib.Path]: the string it was built from and the names joined to
    it with [/]. *)
Record Path : Type := { anchor : string; parts : list string }.

Definition PathOf (s : string) : Path := {| anchor := s; parts := [] |}.

Definition joinpath (p : Path) (name : string) : Path :=
  {| anchor := anchor p; parts := parts p ++ [name] |}.

#[global] Instance Path_eq_dec : EqDecision Path.
Proof. solve_decision. Defined.

#[global] Instance Path_countable : Countable Path.
Proof.
  refine (inj_countable' (fun p => (anchor p, parts p))
            (fun t => {| anchor := t.1; parts := t.2 |}) _).
  by intros [].
Defined.

(** What a path names in the file system. *)
Inductive node : Type := File | Dir.

#[global] Instance node_eq_dec : EqDecision node.
Proof. solve_decision. Defined.

(** An OS process: running, or exited with a return code;
    [heeds_sigterm] tells whether it exits when sent SIGTERM. *)
Inductive proc_state : Type :=
  | Running
  | Exited (returncode : Z).

Record process : Type := {
  argv : list string;
  cwd : string;
  stdin_data : option bytes;
  heeds_sigterm : bool;
  state : proc_state;
}.

(** The effects on processes and on operation records, in the order they
    happen. *)
Inductive event : Type :=
  | EvStatus (ref : nat) (s : string)
  | EvSpawn (pid : nat)
  | EvTerminate (pid : nat)
  | EvKill (pid : nat).

#[global] Instance event_eq_dec : EqDecision event.
Proof. solve_decision. Defined.

(** class MCPConfig, the fields the manager reads, and
    [platform.system()]. *)
Record MCPConfig : Type := {
  unity_editor_path : option string;
  unity_log_file : string;
  system : string;
}.

(** The UnityManager instance with everything it acts on. An operation or
    a process object is a reference: an index into [objects] or
    [processes]. *)
Record World : Type := {
  active_operations : gmap string nat;
  unity_processes : gmap string nat;
  bridge_script_path : Path;
  objects : list UnityOperation;
  processes : list process;
  files : gmap Path node;
  clock : nat -> Z;
  clock_reads : nat;
  trace : list event;
}.

(** ** Computations *)

Inductive outcome (A : Type) : Type :=
  | Return (a : A)
  | Raise (e : exn).
Arguments Return {A} a.
Arguments Raise {A} e.

Definition M (A : Type) : Type := World -> outcome A * World.

Definition ret {A} (a : A) : M A := fun w => (Return a, w).

Definition raise {A} (e : exn) : M A := fun w => (Raise e, w).

Definition bind {A B} (m : M A) (k : A -> M B) : M B :=
  fun w =>
    match m w with
    | (Return a, w') => k a w'
    | (Raise e, w') => (Raise e, w')
    end.

(** try: m / except Exception as e: h e *)
Definition try_except {A} (m : M A) (h : exn -> M A) : M A :=
  fun w =>
    match m w with
    | (Return a, w') => (Return a, w')
    | (Raise e, w') => h e w'
    end.

(** try: m / finally: fin. The outcome of [m] stands unless [fin] itself
    raises. *)
Definition try_finally {A} (m : M A) (fin : M unit) : M A :=
  fun w =>
    match m w with
    | (o, w') =>
        match fin w' with
        | (Return _, w'') => (o, w'')
        | (Raise e, w'') => (Raise e, w'')
        end
    end.

Definition get : M World := fun w => (Return w, w).

Definition modify (f : World -> World) : M unit := fun w => (Return tt, f w).

Declare Scope py_scope.
Delimit Scope py_scope with py.
Notation "x <- m ;; k" := (bind m (fun x => k))
  (at level 100, m at next level, right associativity) : py_scope.
Notation "m ;;; k" := (bind m (fun _ => k))
  (at level 100, right associativity) : py_scope.
Open Scope py_scope.

(** ** World updates *)

Definition emit (e : event) (w : World) : World :=
  {| active_operations := active_operations w;
     unity_processes := unity_processes w;
     bridge_script_path := bridge_script_path w;
     objects := objects w;
     processes := processes w;
     files := files w;
     clock := clock w;
     clock_reads := clock_reads w;
     trace := trace w ++ [e] |}.

Definition with_objects (f : list UnityOperation -> list UnityOperation)
    (w : World) : World :=
  {| active_operations := active_operations w;
     unity_processes := unity_processes w;
     bridge_script_path := bridge_script_path w;
     objects := f (objects w);
     processes := processes w;
     files := files w;
     clock := clock w;
     clock_reads := clock_reads w;
     trace := trace w |}.

Definition with_processes (f : list process -> list process)
    (w : World) : World :=
  {| active_operations := active_operations w;
     unity_processes := unity_processes w;
     bridge_script_path := bridge_script_path w;
     objects := objects w;
     processes := f (processes w);
     files := files w;
     clock := clock w;
     clock_reads := clock_reads w;
     trace := trace w |}.

Definition with_active_operations
    (f : gmap string nat -> gmap string nat) (w : World) : World :=
  {| active_operations := f (active_operations w);
     unity_processes := unity_processes w;
     bridge_script_path := bridge_script_path w;
     objects := objects w;
     processes := processes w;
     files := files w;
     clock := clock w;
     clock_reads := clock_reads w;
     trace := trace w |}.

Definition with_unity_processes
    (f : gmap string nat -> gmap string nat) (w : World) : World :=
  {| active_operations := active_operations w;
     unity_processes := f (unity_processes w);
     bridge_script_path := bridge_script_path w;
     objects := objects w;
     processes := processes w;
     files := files w;
     clock := clock w;
     clock_reads := clock_reads w;
     trace := trace w |}.

Definition with_files (f : gmap Path node -> gmap Path node)
    (w : World) : World :=
  {| active_operations := active_operations w;
     unity_processes := unity_processes w;
     bridge_script_path := bridge_script_path w;
     objects := objects w;
     processes := processes w;
     files := f (files w);
     clock := clock w;
     clock_reads := clock_reads w;
     trace := trace w |}.

Definition tick (w : World) : World :=
  {| active_operations := active_operations w;
     unity_processes := unity_processes w;
     bridge_script_path := bridge_script_path w;
     objects := objects w;
     processes := processes w;
     files := files w;
     clock := clock w;
     clock_reads := S (clock_reads w);
     trace := trace w |}.

(** [datetime.now()]: the next reading of the clock. *)
Definition datetime_now : M Z :=
  fun w => (Return (clock w (clock_reads w)), tick w).

(** ** Operation objects *)

Definition set_status (s : string) (o : UnityOperation) : UnityOperation :=
  {| id := id o; command := command o; project_path := project_path o;
     status := s; start_time := start_time o; end_time := end_time o;
     result := result o; error := error o |}.

(** What an [Optional] attribute holds after a value is assigned to it:
    Python's [None], which is what [json.loads] gives for null, is the
    [None] the attribute has by default. *)
Definition as_optional (v : Json) : option Json :=
  match v with
  | JNull => None
  | JBool _ | JInt _ | JFloat _ | JStr _ | JArr _ | JObj _ => Some v
  end.

Definition set_result (r : Json) (o : UnityOperation) : UnityOperation :=
  {| id := id o; command := command o; project_path := project_path o;
     status := status o; start_time := start_time o; end_time := end_time o;
     result := as_optional r; error := error o |}.

Definition set_error (msg : string) (o : UnityOperation) : UnityOperation :=
  {| id := id o; command := command o; project_path := project_path o;
     status := status o; start_time := start_time o; end_time := end_time o;
     result := result o; error := Some msg |}.

Definition set_end_time (t : Z) (o : UnityOperation) : UnityOperation :=
  {| id := id o; command := command o; project_path := project_path o;
     status := status o; start_time := start_time o; end_time := Some t;
     result := result o; error := error o |}.

(** Attribute assignment on the object a reference names. *)
Definition update (ref : nat) (f : UnityOperation -> UnityOperation)
    : M unit :=
  modify (with_objects (alter f ref)).

(** UnityOperation(...): a new object, and the reference to it. *)
Definition new_operation (o : UnityOperation) : M nat :=
  fun w =>
    let ref := length (objects w) in
    (Return ref,
     emit (EvStatus ref (status o)) (with_objects (fun os => os ++ [o]) w)).

(** operation.status = s *)
Definition assign_status (ref : nat) (s : string) : M unit :=
  update ref (set_status s) ;;; modify (emit (EvStatus ref s)).

(** ** config.py *)

Definition path_exists (fs : gmap Path node) (p : Path) : bool :=
  bool_decide (is_Some (fs !! p)).

Definition is_dir (fs : gmap Path node) (p : Path) : bool :=
  bool_decide (fs !! p = Some Dir).

(** MCPConfig.validate_unity_project_path *)
Definition validate_unity_project_path (fs : gmap Path node)
    (path : string) : bool :=
  let project_path := PathOf path in
  path_exists fs project_path &&
  is_dir fs project_path &&
  path_exists fs (joinpath project_path "Assets") &&
  path_exists fs (joinpath project_path "ProjectSettings").

(** The platform-specific default of [get_unity_editor_path]. *)
Definition default_unity_editor_path (config : MCPConfig) : exn + string :=
  if bool_decide (system config = "Darwin") then
    inr "/Applications/Unity/Hub/Editor/2023.3.0f1/Unity.app/Contents/MacOS/Unity"
  else if bool_decide (system config = "Windows") then
    inr "C:\Program Files\Unity\Hub\Editor\2023.3.0f1\Editor\Unity.exe"
  else if bool_decide (system config = "Linux") then
    inr "/opt/Unity/Editor/Unity"
  else
    inl (Exn ValueError ("Unsupported platform: " +:+ system config)).

(** MCPConfig.get_unity_editor_path. [None] and the empty string are
    both falsy. *)
Definition get_unity_editor_path (config : MCPConfig) : exn + string :=
  match unity_editor_path config with
  | Some p =>
      if bool_decide (p = EmptyString) then default_unity_editor_path config
      else inr p
  | None => default_unity_editor_path config
  end.

(** ** Subprocesses *)

(** What [asyncio.wait_for(process.communicate(..), timeout)] observes of
    the editor: it exits before the timeout fires, with a return code and
    the captured streams, or it is still running then. *)
Inductive behaviour : Type :=
  | Exits (returncode : Z) (stdout stderr : bytes)
  | Hangs.

(** The part of one call that the operating system and the editor decide:
    whether the process can be created, whether it would exit on SIGTERM,
    and how it runs. *)
Record subprocess_env : Type := {
  launch_error : option exn;
  on_sigterm : bool;
  run : behaviour;
}.

Definition set_state (st : proc_state) (p : process) : process :=
  {| argv := argv p; cwd := cwd p; stdin_data := stdin_data p;
     heeds_sigterm := heeds_sigterm p; state := st |}.

Definition set_stdin (b : bytes) (p : process) : process :=
  {| argv := argv p; cwd := cwd p; stdin_data := Some b;
     heeds_sigterm := heeds_sigterm p; state := state p |}.

Definition update_process (pid : nat) (f : process -> process) : M unit :=
  modify (with_processes (alter f pid)).

(** asyncio.create_subprocess_exec with the argument vector [args], the
    three standard streams piped and [cwd=dir]. *)
Definition create_subprocess_exec (env : subprocess_env)
    (args : list string) (dir : string) : M nat :=
  match launch_error env with
  | Some e => raise e
  | None =>
      fun w =>
        let pid := length (processes w) in
        let p := {| argv := args; cwd := dir; stdin_data := None;
                    heeds_sigterm := on_sigterm env; state := Running |} in
        (Return pid,
         emit (EvSpawn pid) (with_processes (fun ps => ps ++ [p]) w))
  end.

(** asyncio.wait_for(process.communicate(input), timeout=timeout).
    When the timeout fires the pending [communicate] is cancelled and
    [asyncio.TimeoutError] is raised; nothing is sent to the process. *)
Definition wait_for_communicate (env : subprocess_env) (pid : nat)
    (input : bytes) (timeout : Z) : M (bytes * bytes) :=
  update_process pid (set_stdin input) ;;;
  match run env with
  | Exits rc out err =>
      update_process pid (set_state (Exited rc)) ;;;
      ret (out, err)
  | Hangs => raise (Exn TimeoutError EmptyString)
  end.

(** process.returncode / process.poll(): [None] while the process runs.
    A reference outside the table names no process. *)
Definition poll (pid : nat) : M (option Z) :=
  fun w =>
    match processes w !! pid with
    | Some p =>
        match state p with
        | Running => (Return None, w)
        | Exited rc => (Return (Some rc), w)
        end
    | None => (Return (Some 0), w)
    end.

Definition alive (w : World) (pid : nat) : bool :=
  match processes w !! pid with
  | Some p => match state p with Running => true | Exited _ => false end
  | None => false
  end.

(** process.terminate(): SIGTERM. A process that heeds it has exited by
    the time [cleanup] polls again. *)
Definition terminate (pid : nat) : M unit :=
  modify (emit (EvTerminate pid)) ;;;
  update_process pid (fun p =>
    match state p with
    | Running => if heeds_sigterm p then set_state (Exited (-15)) p else p
    | Exited _ => p
    end).

(** process.kill(): SIGKILL. *)
Definition kill (pid : nat) : M unit :=
  modify (emit (EvKill pid)) ;;;
  update_process pid (fun p =>
    match state p with
    | Running => set_state (Exited (-9)) p
    | Exited _ => p
    end).

(** ** unity_manager.py *)

Section Manager.

Context {rt : Runtime}.
Variable config : MCPConfig.

Definition lift {A} (r : exn + A) : M A :=
  match r with
  | inl e => raise e
  | inr a => ret a
  end.

(** The id of an operation: f"{action}_{datetime.now().timestamp()}" *)
Definition operation_id (action : string) (now : Z) : string :=
  action +:+ "_" +:+ timestamp_str now.

(** UnityManager.__init__, with [_create_bridge_script] writing the
    bridge script under [tempfile.gettempdir()]. *)
Definition UnityManager_init (tmpdir : string) (fs : gmap Path node)
    (clk : nat -> Z) : World :=
  let bridge_path := joinpath (PathOf tmpdir) "unity_mcp_bridge.cs" in
  {| active_operations := ∅;
     unity_processes := ∅;
     bridge_script_path := bridge_path;
     objects := [];
     processes := [];
     files := <[bridge_path := File]> fs;
     clock := clk;
     clock_reads := 0;
     trace := [] |}.

(** The body of the [try] of execute_unity_command (lines 201-259). *)
Definition execute_body (env : subprocess_env) (operation : nat)
    (action path : string) (parameters : Json) (timeout : Z) : M Json :=
  w <- get ;;
  if negb (validate_unity_project_path (files w) path) then
    raise (Exn ValueError ("Invalid Unity project path: " +:+ path))
  else
    editor <- lift (get_unity_editor_path config) ;;
    let unity_cmd :=
      [editor; "-batchmode"; "-quit";
       "-projectPath"; path;
       "-logFile"; unity_log_file config;
       "-executeMethod"; "UnityMCP.MCPBridge.ExecuteCommand"] in
    let command_data :=
      JObj [("Action", JStr action); ("Parameters", parameters)] in
    process <- create_subprocess_exec env unity_cmd path ;;
    let input_data := str_encode (json_dumps command_data) in
    streams <- wait_for_communicate env process input_data timeout ;;
    let stdout := streams.1 in
    let stderr := streams.2 in
    returncode <- poll process ;;
    if bool_decide (returncode = Some 0) then
      try_except
        (text <- lift (bytes_decode stdout) ;;
         res <- lift (json_loads text) ;;
         assign_status operation "completed" ;;;
         update operation (set_result res) ;;;
         now <- datetime_now ;;
         update operation (set_end_time now) ;;;
         ret res)
        (fun e =>
           if bool_decide (exn_cls e = JSONDecodeError) then
             let error_msg := "Failed to parse Unity output: " +:+ exn_str e in
             assign_status operation "failed" ;;;
             update operation (set_error error_msg) ;;;
             raise (Exn ValueError error_msg)
           else raise e)
    else
      text <- lift (bytes_decode stderr) ;;
      let error_msg :=
        "Unity process failed with code "
        +:+ match returncode with Some rc => pretty rc | None => "None" end
        +:+ ": " +:+ text in
      assign_status operation "failed" ;;;
      update operation (set_error error_msg) ;;;
      raise (Exn RuntimeError error_msg).

(** The try statement of execute_unity_command (lines 200-274): the
    body, the two handlers and the finally clause. *)
Definition execute_guarded (env : subprocess_env) (operation : nat)
    (action path : string) (parameters : Json) (timeout : Z) : M Json :=
  try_finally
    (try_except
       (execute_body env operation action path parameters timeout)
       (fun e =>
          if bool_decide (exn_cls e = TimeoutError) then
            let error_msg :=
              "Unity command timed out after " +:+ pretty timeout
              +:+ " seconds" in
            assign_status operation "failed" ;;;
            update operation (set_error error_msg) ;;;
            raise (Exn TimeoutError error_msg)
          else
            assign_status operation "failed" ;;;
            update operation (set_error (exn_str e)) ;;;
            raise e))
    (now <- datetime_now ;;
     update operation (set_end_time now)).

(** UnityManager.execute_unity_command *)
Definition execute_unity_command (env : subprocess_env)
    (action path : string) (parameters : Json) (timeout : Z) : M Json :=
  stamp <- datetime_now ;;
  let op_id := operation_id action stamp in
  started <- datetime_now ;;
  operation <- new_operation
    {| id := op_id; command := action; project_path := path;
       status := "pending"; start_time := Some started; end_time := None;
       result := None; error := None |} ;;
  modify (with_active_operations (fun m => <[op_id := operation]> m)) ;;;
  execute_guarded env operation action path parameters timeout.

(** One round of the loop of [cleanup]; whatever it raises is logged and
    dropped. *)
Definition cleanup_process (process : nat) : M unit :=
  try_except
    (st <- poll process ;;
     match st with
     | None =>
         terminate process ;;;
         st' <- poll process ;;
         match st' with
         | None => kill process
         | Some _ => ret tt
         end
     | Some _ => ret tt
     end)
    (fun _ => ret tt).

Fixpoint for_each {A} (l : list A) (f : A -> M unit) : M unit :=
  match l with
  | [] => ret tt
  | x :: l' => f x ;;; for_each l' f
  end.

(** os.remove(path) *)
Definition os_remove (p : Path) : M unit :=
  fun w =>
    match files w !! p with
    | Some File => (Return tt, with_files (delete p) w)
    | Some Dir => (Raise (Exn OSError "Is a directory"), w)
    | None => (Raise (Exn FileNotFoundError "No such file or directory"), w)
    end.

(** UnityManager.cleanup *)
Definition cleanup : M unit :=
  w <- get ;;
  for_each (map_to_list (unity_processes w))
    (fun item => cleanup_process item.2) ;;;
  modify (with_unity_processes (fun _ => ∅)) ;;;
  modify (with_active_operations (fun _ => ∅)) ;;;
  try_except
    (w' <- get ;;
     if path_exists (files w') (bridge_script_path w') then
       os_remove (bridge_script_path w')
     else ret tt)
    (fun _ => ret tt).

End Manager.

(** ** unity_manager.py: project information *)

(** What [get_unity_project_info] asks of pathlib and of the metadata of
    the project directory. *)
Class PathInfo : Type := {
  (** [Path(s).name] *)
  path_name : string -> string;
  (** [str(Path(s))] *)
  path_str : string -> string;
  (** [datetime.fromtimestamp(Path(s).stat().st_mtime).isoformat()] *)
  last_modified : string -> exn + string;
}.

Section ProjectInfo.

Context {pi : PathInfo}.

(** UnityManager.get_unity_project_info *)
Definition get_unity_project_info (path : string) : M Json :=
  let project_path_obj := PathOf path in
  w <- get ;;
  if negb (validate_unity_project_path (files w) path) then
    raise (Exn ValueError ("Invalid Unity project path: " +:+ path))
  else
    let project_settings_path :=
      joinpath (joinpath project_path_obj "ProjectSettings")
        "ProjectSettings.asset" in
    modified <- lift (last_modified path) ;;
    ret (JObj
           [("name", JStr (path_name path));
            ("path", JStr (path_str path));
            ("exists", JBool (path_exists (files w) project_path_obj));
            ("has_assets",
             JBool (path_exists (files w)
                      (joinpath project_path_obj "Assets")));
            ("has_project_settings",
             JBool (path_exists (files w) project_settings_path));
            ("last_modified", JStr modified)]).

End ProjectInfo.

(** ** mcp_tools.py *)

(** The parameter models of the tools. An [int] is unbounded, an
    [Optional] field holds [None] or a value, and a value typed [Any]
    is one of those a JSON request can carry. *)

Module ProjectScanParams.
Record t : Type := {
  project_path : string;
  patterns : list string;
  include_assets : bool;
  max_depth : Z;
}.
End ProjectScanParams.

Module BuildRunParams.
Record t : Type := {
  project_path : string;
  target : string;
  scripting_backend : option string;
  development_build : bool;
  output_path : string;
  timeout_minutes : Z;
}.
End BuildRunParams.

Module TestRunParams.
Record t : Type := {
  project_path : string;
  test_mode : string;
  filters : option (list (string * Json));
  output_path : string;
  timeout_minutes : Z;
  collect_coverage : bool;
}.
End TestRunParams.

Module SceneValidateParams.
Record t : Type := {
  project_path : string;
  scene_paths : option (list string);
  check_missing_scripts : bool;
  check_lightmaps : bool;
}.
End SceneValidateParams.

Module AssetAuditParams.
Record t : Type := {
  project_path : string;
  asset_types : option (list string);
  check_import_settings : bool;
  check_optimization : bool;
}.
End AssetAuditParams.

Module CodegenApplyParams.
Record t : Type := {
  project_path : string;
  file_path : string;
  patch_content : string;
  preview_only : bool;
}.
End CodegenApplyParams.

Module EditorExecParams.
Record t : Type := {
  project_path : string;
  method_name : string;
  parameters : option (list (string * Json));
  timeout_minutes : Z;
}.
End EditorExecParams.

Module PerfProfileParams.
Record t : Type := {
  project_path : string;
  scene_path : option string;
  duration_seconds : Z;
  output_path : string;
}.
End PerfProfileParams.

(** A list of strings, and an [Optional] value, as the values they are
    in a dict. *)
Definition str_list (l : list string) : Json := JArr (JStr <$> l).

Definition optional {A} (f : A -> Json) (o : option A) : Json :=
  match o with
  | Some a => f a
  | None => JNull
  end.

(** type(v).__name__ *)
Definition type_name (v : Json) : string :=
  match v with
  | JNull => "NoneType"
  | JBool _ => "bool"
  | JInt _ => "int"
  | JFloat _ => "float"
  | JStr _ => "str"
  | JArr _ => "list"
  | JObj _ => "dict"
  end.

(** The value a dict holds under a key. *)
Fixpoint dict_lookup (key : string) (items : list (string * Json))
    : option Json :=
  match items with
  | [] => None
  | (k, v) :: items' =>
      if bool_decide (k = key) then Some v else dict_lookup key items'
  end.

(** d[key] = v: the value of a key that is there is replaced in place,
    a new key goes to the end. *)
Fixpoint dict_setitem (key : string) (v : Json)
    (items : list (string * Json)) : list (string * Json) :=
  match items with
  | [] => [(key, v)]
  | (k, v') :: items' =>
      if bool_decide (k = key) then (key, v) :: items'
      else (k, v') :: dict_setitem key v items'
  end.

(** result.get(key, default). On a value that is no dict the lookup of
    the attribute [get] raises AttributeError; [inl] holds its [str]. *)
Definition get_default (result : Json) (key : string) (default : Json)
    : string + Json :=
  match result with
  | JObj items =>
      inr match dict_lookup key items with
          | Some v => v
          | None => default
          end
  | _ =>
      inl ("'" +:+ type_name result +:+ "' object has no attribute 'get'")
  end.

(** The handler of every tool:
    except Exception as e: return {"success": False, "error": str(e)} *)
Definition error_response (msg : string) : Json :=
  JObj [("success", JBool false); ("error", JStr msg)].

(** The [return] that ends the [try] of every tool,
    {"success": True, "data": result.get("Data", {}), ...}, with the
    items [more] after the two. When [result] is no dict the call of
    [get] raises inside the [try]; the handler takes the AttributeError as
    it takes every exception, and the tool returns what the handler
    builds from it. *)
Definition success_response (result : Json) (more : list (string * Json))
    : Json :=
  match get_default result "Data" (JObj []) with
  | inr data => JObj (("success", JBool true) :: ("data", data) :: more)
  | inl msg => error_response msg
  end.

(** params.dict() of a TestRunParams *)
Definition TestRunParams_dict (params : TestRunParams.t)
    : list (string * Json) :=
  [("project_path", JStr (TestRunParams.project_path params));
   ("test_mode", JStr (TestRunParams.test_mode params));
   ("filters", optional JObj (TestRunParams.filters params));
   ("output_path", JStr (TestRunParams.output_path params));
   ("timeout_minutes", JInt (TestRunParams.timeout_minutes params));
   ("collect_coverage", JBool (TestRunParams.collect_coverage params))].

(** A call of one of the nine tools, with its parameters. *)
Inductive tool_call : Type :=
  | ProjectScan (params : ProjectScanParams.t)
  | BuildRun (params : BuildRunParams.t)
  | TestPlaymode (params : TestRunParams.t)
  | TestEditmode (params : TestRunParams.t)
  | SceneValidate (params : SceneValidateParams.t)
  | AssetAudit (params : AssetAuditParams.t)
  | CodegenApply (params : CodegenApplyParams.t)
  | EditorExec (params : EditorExecParams.t)
  | PerfProfile (params : PerfProfileParams.t).

Section Tools.

Context {rt : Runtime}.
Variable config : MCPConfig.

(** The tools that [register_tools] defines over the manager. Each takes
    the oracle of the one subprocess its call may create. *)

Definition project_scan (env : subprocess_env)
    (params : ProjectScanParams.t) : M Json :=
  try_except
    (w <- get ;;
     if negb (validate_unity_project_path (files w)
                (ProjectScanParams.project_path params))
     then
       ret (JObj [("success", JBool false);
                  ("error",
                   JStr ("Invalid Unity project path: "
                         +:+ ProjectScanParams.project_path params))])
     else
       result <- execute_unity_command config env "project.scan"
         (ProjectScanParams.project_path params)
         (JObj [("patterns", str_list (ProjectScanParams.patterns params));
                ("includeAssets",
                 JBool (ProjectScanParams.include_assets params));
                ("maxDepth", JInt (ProjectScanParams.max_depth params))])
         300 ;;
       ret (success_response result
              [("project_path", JStr (ProjectScanParams.project_path params));
               ("patterns", str_list (ProjectScanParams.patterns params))]))
    (fun e => ret (error_response (exn_str e))).

Definition build_run (env : subprocess_env)
    (params : BuildRunParams.t) : M Json :=
  try_except
    (w <- get ;;
     if negb (validate_unity_project_path (files w)
                (BuildRunParams.project_path params))
     then
       ret (JObj [("success", JBool false);
                  ("error",
                   JStr ("Invalid Unity project path: "
                         +:+ BuildRunParams.project_path params))])
     else
       result <- execute_unity_command config env "build.run"
         (BuildRunParams.project_path params)
         (JObj [("target", JStr (BuildRunParams.target params));
                ("scriptingBackend",
                 optional JStr (BuildRunParams.scripting_backend params));
                ("developmentBuild",
                 JBool (BuildRunParams.development_build params));
                ("outputPath", JStr (BuildRunParams.output_path params))])
         (BuildRunParams.timeout_minutes params * 60) ;;
       ret (success_response result
              [("target", JStr (BuildRunParams.target params));
               ("output_path", JStr (BuildRunParams.output_path params))]))
    (fun e => ret (error_response (exn_str e))).

Definition test_playmode (env : subprocess_env)
    (params : TestRunParams.t) : M Json :=
  try_except
    (let test_params :=
       dict_setitem "test_mode" (JStr "playmode")
         (TestRunParams_dict params) in
     result <- execute_unity_command config env "test.run"
       (TestRunParams.project_path params)
       (JObj test_params)
       (TestRunParams.timeout_minutes params * 60) ;;
     ret (success_response result
            [("test_mode", JStr "playmode");
             ("output_path", JStr (TestRunParams.output_path params))]))
    (fun e => ret (error_response (exn_str e))).

Definition test_editmode (env : subprocess_env)
    (params : TestRunParams.t) : M Json :=
  try_except
    (let test_params :=
       dict_setitem "test_mode" (JStr "editmode")
         (TestRunParams_dict params) in
     result <- execute_unity_command config env "test.run"
       (TestRunParams.project_path params)
       (JObj test_params)
       (TestRunParams.timeout_minutes params * 60) ;;
     ret (success_response result
            [("test_mode", JStr "editmode");
             ("output_path", JStr (TestRunParams.output_path params))]))
    (fun e => ret (error_response (exn_str e))).

Definition scene_validate (env : subprocess_env)
    (params : SceneValidateParams.t) : M Json :=
  try_except
    (result <- execute_unity_command config env "scene.validate"
       (SceneValidateParams.project_path params)
       (JObj [("scenePaths",
               optional str_list (SceneValidateParams.scene_paths params));
              ("checkMissingScripts",
               JBool (SceneValidateParams.check_missing_scripts params));
              ("checkLightmaps",
               JBool (SceneValidateParams.check_lightmaps params))])
       300 ;;
     ret (success_response result
            [("scene_paths",
              optional str_list (SceneValidateParams.scene_paths params))]))
    (fun e => ret (error_response (exn_str e))).

Definition asset_audit (env : subprocess_env)
    (params : AssetAuditParams.t) : M Json :=
  try_except
    (result <- execute_unity_command config env "asset.audit"
       (AssetAuditParams.project_path params)
       (JObj [("assetTypes",
               optional str_list (AssetAuditParams.asset_types params));
              ("checkImportSettings",
               JBool (AssetAuditParams.check_import_settings params));
              ("checkOptimization",
               JBool (AssetAuditParams.check_optimization params))])
       300 ;;
     ret (success_response result
            [("asset_types",
              optional str_list (AssetAuditParams.asset_types params))]))
    (fun e => ret (error_response (exn_str e))).

Definition codegen_apply (env : subprocess_env)
    (params : CodegenApplyParams.t) : M Json :=
  try_except
    (result <- execute_unity_command config env "codegen.apply"
       (CodegenApplyParams.project_path params)
       (JObj [("filePath", JStr (CodegenApplyParams.file_path params));
              ("patchContent",
               JStr (CodegenApplyParams.patch_content params));
              ("previewOnly",
               JBool (CodegenApplyParams.preview_only params))])
       300 ;;
     ret (success_response result
            [("file_path", JStr (CodegenApplyParams.file_path params));
             ("preview_only",
              JBool (CodegenApplyParams.preview_only params))]))
    (fun e => ret (error_response (exn_str e))).

Definition editor_exec (env : subprocess_env)
    (params : EditorExecParams.t) : M Json :=
  try_except
    (result <- execute_unity_command config env "editor.exec"
       (EditorExecParams.project_path params)
       (JObj [("methodName", JStr (EditorExecParams.method_name params));
              ("parameters",
               (* params.parameters or {} *)
               match EditorExecParams.parameters params with
               | Some (item :: items) => JObj (item :: items)
               | Some [] | None => JObj []
               end)])
       (EditorExecParams.timeout_minutes params * 60) ;;
     ret (success_response result
            [("method_name", JStr (EditorExecParams.method_name params))]))
    (fun e => ret (error_response (exn_str e))).

Definition perf_profile (env : subprocess_env)
    (params : PerfProfileParams.t) : M Json :=
  try_except
    (result <- execute_unity_command config env "perf.profile"
       (PerfProfileParams.project_path params)
       (JObj [("scenePath",
               optional JStr (PerfProfileParams.scene_path params));
              ("durationSeconds",
               JInt (PerfProfileParams.duration_seconds params));
              ("outputPath", JStr (PerfProfileParams.output_path params))])
       300 ;;
     ret (success_response result
            [("scene_path",
              optional JStr (PerfProfileParams.scene_path params));
             ("output_path", JStr (PerfProfileParams.output_path params))]))
    (fun e => ret (error_response (exn_str e))).

(** FastMCP running the tool a call names. *)
Definition call_tool (env : subprocess_env) (c : tool_call) : M Json :=
  match c with
  | ProjectScan params => project_scan env params
  | BuildRun params => build_run env params
  | TestPlaymode params => test_playmode env params
  | TestEditmode params => test_editmode env params
  | SceneValidate params => scene_validate env params
  | AssetAudit params => asset_audit env params
  | CodegenApply params => codegen_apply env params
  | EditorExec params => editor_exec env params
  | PerfProfile params => perf_profile env params
  end.

End Tools.

(** The project a call names, and the timeout in seconds its tool passes
    to the manager ([timeout_minutes * 60], or the default of
    [execute_unity_command]). *)
Definition call_project_path (c : tool_call) : string :=
  match c with
  | ProjectScan params => ProjectScanParams.project_path params
  | BuildRun params => BuildRunParams.project_path params
  | TestPlaymode params | TestEditmode params =>
      TestRunParams.project_path params
  | SceneValidate params => SceneValidateParams.project_path params
  | AssetAudit params => AssetAuditParams.project_path params
  | CodegenApply params => CodegenApplyParams.project_path params
  | EditorExec params => EditorExecParams.project_path params
  | PerfProfile params => PerfProfileParams.project_path params
  end.

Definition call_timeout (c : tool_call) : Z :=
  match c with
  | BuildRun params => BuildRunParams.timeout_minutes params * 60
  | TestPlaymode params | TestEditmode params =>
      TestRunParams.timeout_minutes params * 60
  | EditorExec params => EditorExecParams.timeout_minutes params * 60
  | ProjectScan _ | SceneValidate _ | AssetAudit _ | CodegenApply _
  | PerfProfile _ => 300
  end.

(** ** server.py *)

(** How [mcp.run_stdio_async()] ends, as far as [run] tells the cases
    apart: it returns, it raises KeyboardInterrupt (which is no
    [Exception]), or it raises an exception. What the tools did while
    the server ran is in the world it leaves. *)
Inductive served : Type :=
  | Stopped
  | KeyboardInterrupt
  | Failed (e : exn).

(** MCPServer.cleanup *)
Definition MCPServer_cleanup : M unit := cleanup.

(** MCPServer.run: the interrupt is logged and dropped, an exception
    is logged and raised again, and [cleanup] runs in the [finally]. *)
Definition MCPServer_run (run_stdio_async : World -> served * World)
    : M unit :=
  try_finally
    (fun w =>
       match run_stdio_async w with
       | (Stopped, w') => (Return tt, w')
       | (KeyboardInterrupt, w') => (Return tt, w')
       | (Failed e, w') => (Raise e, w')
       end)
    MCPServer_cleanup.

(** ** The states of a manager *)



Section Reachable.

Context {rt : Runtime}.
Variable config : MCPConfig.

(** The states a manager goes through when the calls on it run one after
    the other: it is created, commands are executed, directly or by a
    tool, and it is cleaned up; between two calls the files may change
    and a running process may exit. ([get_unity_project_info] leaves
    the state as it is.) *)
Inductive reachable : World -> Prop :=
  | reach_init tmpdir fs clk :
      reachable (UnityManager_init tmpdir fs clk)
  | reach_execute w env action path parameters timeout :
      reachable w ->
      reachable
        (execute_unity_command config env action path parameters timeout w).2
  | reach_tool w env c :
      reachable w ->
      reachable (call_tool config env c w).2
  | reach_cleanup w :
      reachable w ->
      reachable (cleanup w).2
  | reach_files w fs :
      reachable w ->
      reachable (with_files (fun _ => fs) w)
  | reach_exit w pid rc :
      reachable w ->
      alive w pid = true ->
      reachable (with_processes (alter (set_state (Exited rc)) pid) w).

End Reachable.

(** ** The CPython runtime

    The library functions behind [Runtime], as CPython 3 has them: the
    strict UTF-8 codec, and the json module with its default decoder and
    encoder (json/decoder.py, json/scanner.py, json/encoder.py and the C
    scanner that stands in for the first two). A [str] is held as the UTF-8
    bytes of its code points. Nesting depth and integer length are not
    limited. *)

Module CPython.

Open Scope N_scope.

(** ** Text: code points and their UTF-8 form *)

Definition byte_val (b : Byte.byte) : N := Byte.to_N b.

Definition chr (n : N) : ascii := ascii_of_N n.

Definition is_cont (b : N) : bool := (128 <=? b) && (b <? 192).

(** The UTF-8 bytes of a code point (a surrogate takes three). *)
Definition utf8_of_cp (c : N) : list ascii :=
  if c <? 128 then [chr c]
  else if c <? 2048 then [chr (192 + c / 64); chr (128 + c mod 64)]
  else if c <? 65536 then
    [chr (224 + c / 4096); chr (128 + (c / 64) mod 64); chr (128 + c mod 64)]
  else
    [chr (240 + c / 262144); chr (128 + (c / 4096) mod 64);
     chr (128 + (c / 64) mod 64); chr (128 + c mod 64)].

Definition string_of_cps (l : list N) : string :=
  String.string_of_list_ascii (concat (map utf8_of_cp l)).

(** The code points of a text; a byte outside a well-formed sequence
    counts for itself. *)
Fixpoint cps_of_bytes (l : list N) : list N :=
  match l with
  | [] => []
  | b0 :: l1 =>
      if b0 <? 192 then b0 :: cps_of_bytes l1
      else
        match l1 with
        | b1 :: l2 =>
            if negb (is_cont b1) then b0 :: cps_of_bytes l1
            else if b0 <? 224 then
              ((b0 - 192) * 64 + (b1 - 128)) :: cps_of_bytes l2
            else
              match l2 with
              | b2 :: l3 =>
                  if negb (is_cont b2) then b0 :: cps_of_bytes l1
                  else if b0 <? 240 then
                    ((b0 - 224) * 4096 + (b1 - 128) * 64 + (b2 - 128))
                      :: cps_of_bytes l3
                  else
                    match l3 with
                    | b3 :: l4 =>
                        if negb (is_cont b3) then b0 :: cps_of_bytes l1
                        else
                          ((b0 - 240) * 262144 + (b1 - 128) * 4096
                           + (b2 - 128) * 64 + (b3 - 128))
                            :: cps_of_bytes l4
                    | [] => b0 :: cps_of_bytes l1
                    end
              | [] => b0 :: cps_of_bytes l1
              end
        | [] => [b0]
        end
  end.

Definition cps_of_string (s : string) : list N :=
  cps_of_bytes (map N_of_ascii (String.list_ascii_of_string s)).

(** The string of one double quote. *)
Definition quote : string := String (chr 34) EmptyString.

(** ** bytes.decode() *)

Definition hex_digit (n : N) : ascii :=
  if n <? 10 then chr (48 + n) else chr (87 + n).

(** "%02x" *)
Definition hex2 (n : N) : string :=
  String (hex_digit (n / 16)) (String (hex_digit (n mod 16)) EmptyString).

(** "%04x" *)
Definition hex4 (n : N) : string :=
  String (hex_digit (n / 4096))
    (String (hex_digit ((n / 256) mod 16)) (hex2 (n mod 256))).

(** The first ill-formed sequence of a byte string, as the strict UTF-8
    decoder reports it: where it starts, where it stops and why. *)
Fixpoint utf8_check (l : list N) (pos : nat)
    : option (nat * nat * string) :=
  match l with
  | [] => None
  | b0 :: l1 =>
      if b0 <? 128 then utf8_check l1 (S pos)
      else if b0 <? 194 then Some (pos, S pos, "invalid start byte")
      else if b0 <? 224 then
        match l1 with
        | [] => Some (pos, pos + 1, "unexpected end of data")%nat
        | b1 :: l2 =>
            if is_cont b1 then utf8_check l2 (pos + 2)%nat
            else Some (pos, pos + 1, "invalid continuation byte")%nat
        end
      else if b0 <? 240 then
        match l1 with
        | [] => Some (pos, pos + 1, "unexpected end of data")%nat
        | b1 :: l2 =>
            if negb (is_cont b1)
               || (if b1 <? 160 then b0 =? 224 else b0 =? 237)
            then Some (pos, pos + 1, "invalid continuation byte")%nat
            else
              match l2 with
              | [] => Some (pos, pos + 2, "unexpected end of data")%nat
              | b2 :: l3 =>
                  if is_cont b2 then utf8_check l3 (pos + 3)%nat
                  else Some (pos, pos + 2, "invalid continuation byte")%nat
              end
        end
      else if b0 <? 245 then
        match l1 with
        | [] => Some (pos, pos + 1, "unexpected end of data")%nat
        | b1 :: l2 =>
            if negb (is_cont b1)
               || (if b1 <? 144 then b0 =? 240 else b0 =? 244)
            then Some (pos, pos + 1, "invalid continuation byte")%nat
            else
              match l2 with
              | [] => Some (pos, pos + 2, "unexpected end of data")%nat
              | b2 :: l3 =>
                  if negb (is_cont b2)
                  then Some (pos, pos + 2, "invalid continuation byte")%nat
                  else
                    match l3 with
                    | [] =>
                        Some (pos, pos + 3, "unexpected end of data")%nat
                    | b3 :: l4 =>
                        if is_cont b3 then utf8_check l4 (pos + 4)%nat
                        else
                          Some (pos, pos + 3,
                                "invalid continuation byte")%nat
                    end
              end
        end
      else Some (pos, S pos, "invalid start byte")
  end.

(** str(e) of a UnicodeDecodeError *)
Definition decode_error_str (l : list N) (start stop : nat)
    (reason : string) : string :=
  if bool_decide (stop = S start) then
    "'utf-8' codec can't decode byte 0x"
    +:+ hex2 (nth start l 0) +:+ " in position " +:+ pretty start
    +:+ ": " +:+ reason
  else
    "'utf-8' codec can't decode bytes in position " +:+ pretty start
    +:+ "-" +:+ pretty (stop - 1)%nat +:+ ": " +:+ reason.

Definition bytes_decode (b : bytes) : exn + string :=
  let l := map byte_val b in
  match utf8_check l 0 with
  | Some (start, stop, reason) =>
      inl (Exn UnicodeDecodeError (decode_error_str l start stop reason))
  | None => inr (String.string_of_list_ascii (map chr l))
  end.

Definition str_encode (s : string) : bytes :=
  String.list_byte_of_string s.

(** ** json.loads *)

(** The result of a scanning step: a value with the rest of the text and
    the index reached, the index where no value starts, a decoding error
    at an index, or too deep a nesting. *)
Inductive scan (A : Type) : Type :=
  | Scanned (a : A) (rest : list N) (pos : nat)
  | StopIteration (pos : nat)
  | DecodeError (msg : string) (pos : nat)
  | TooDeep.
Arguments Scanned {A} a rest pos.
Arguments StopIteration {A} pos.
Arguments DecodeError {A} msg pos.
Arguments TooDeep {A}.

Definition is_ws (c : N) : bool :=
  (c =? 32) || (c =? 9) || (c =? 10) || (c =? 13).

(** WHITESPACE.match(s, end).end() *)
Fixpoint skip_ws (s : list N) (pos : nat) : list N * nat :=
  match s with
  | c :: s' => if is_ws c then skip_ws s' (S pos) else (s, pos)
  | [] => ([], pos)
  end.

Definition is_digit (c : N) : bool := (48 <=? c) && (c <=? 57).

Definition hex_val (c : N) : option N :=
  if is_digit c then Some (c - 48)
  else if (97 <=? c) && (c <=? 102) then Some (c - 87)
  else if (65 <=? c) && (c <=? 70) then Some (c - 55)
  else None.

Definition hex_val4 (a b c d : N) : option N :=
  match hex_val a, hex_val b, hex_val c, hex_val d with
  | Some x, Some y, Some z, Some t => Some (x * 4096 + y * 256 + z * 16 + t)
  | _, _, _, _ => None
  end.

(** BACKSLASH *)
Definition backslash (c : N) : option N :=
  if c =? 34 then Some 34
  else if c =? 92 then Some 92
  else if c =? 47 then Some 47
  else if c =? 98 then Some 8
  else if c =? 102 then Some 12
  else if c =? 110 then Some 10
  else if c =? 114 then Some 13
  else if c =? 116 then Some 9
  else None.

(** scanstring, from the index after the opening quote, as the C scanner
    of the json module does it: a \u escape needs its four digits and one
    more character after them, and so does the second half of a surrogate
    pair. *)
Fixpoint scanstring (s : list N) (pos begin : nat) (acc : list N)
    : scan (list N) :=
  match s with
  | [] => DecodeError "Unterminated string starting at" begin
  | c :: s1 =>
      if c =? 34 then Scanned (rev acc) s1 (S pos)
      else if c =? 92 then
        match s1 with
        | [] => DecodeError "Unterminated string starting at" begin
        | esc :: s2 =>
            if esc =? 117 then
              match s2 with
              | h1 :: h2 :: h3 :: h4 :: ((_ :: _) as s6) =>
                  match hex_val4 h1 h2 h3 h4 with
                  | None => DecodeError "Invalid \uXXXX escape" (S pos)
                  | Some uni =>
                      if (55296 <=? uni) && (uni <=? 56319) then
                        match s6 with
                        | b :: u :: g1 :: g2 :: g3 :: g4 :: ((_ :: _) as s12)
                          =>
                            if (b =? 92) && (u =? 117) then
                              match hex_val4 g1 g2 g3 g4 with
                              | None =>
                                  DecodeError "Invalid \uXXXX escape"
                                    (pos + 7)
                              | Some uni2 =>
                                  if (56320 <=? uni2) && (uni2 <=? 57343)
                                  then
                                    scanstring s12 (pos + 12) begin
                                      ((65536 + (uni - 55296) * 1024
                                        + (uni2 - 56320)) :: acc)
                                  else
                                    scanstring s6 (pos + 6) begin
                                      (uni :: acc)
                              end
                            else scanstring s6 (pos + 6) begin (uni :: acc)
                        | _ => scanstring s6 (pos + 6) begin (uni :: acc)
                        end
                      else scanstring s6 (pos + 6) begin (uni :: acc)
                  end
              | _ => DecodeError "Invalid \uXXXX escape" (S pos)
              end
            else
              match backslash esc with
              | Some ch => scanstring s2 (pos + 2) begin (ch :: acc)
              | None => DecodeError "Invalid \escape" pos
              end
        end
      else if c <? 32 then DecodeError "Invalid control character at" pos
      else scanstring s1 (S pos) begin (c :: acc)
  end.

(** The digits at the head of a text, and what follows them. *)
Fixpoint take_digits (s : list N) : list N * list N :=
  match s with
  | c :: s' =>
      if is_digit c then
        let r := take_digits s' in (c :: r.1, r.2)
      else ([], s)
  | [] => ([], [])
  end.

Definition digits_value (ds : list N) : Z :=
  fold_left (fun acc d => (10 * acc + Z.of_N (d - 48))%Z) ds 0%Z.

(** NUMBER_RE.match at the head of a text: the integer part, then the
    fraction and the exponent if they are there. *)
Definition match_number (s : list N)
    : option (list N * list N * list N * list N) :=
  let (sign, s0) :=
    match s with
    | 45 :: s' => ([45], s')
    | _ => ([], s)
    end in
  match s0 with
  | c :: s1 =>
      if is_digit c then
        let (int_rest, s2) :=
          if c =? 48 then ([], s1) else take_digits s1 in
        let integer := sign ++ c :: int_rest in
        let (frac, s3) :=
          match s2 with
          | 46 :: t =>
              let (ds, t') := take_digits t in
              match ds with
              | [] => ([], s2)
              | _ => (46 :: ds, t')
              end
          | _ => ([], s2)
          end in
        let (exp, s4) :=
          match s3 with
          | e :: t =>
              if (e =? 101) || (e =? 69) then
                let (sg, t0) :=
                  match t with
                  | g :: t' =>
                      if (g =? 43) || (g =? 45) then ([g], t') else ([], t)
                  | [] => ([], t)
                  end in
                let (ds, t') := take_digits t0 in
                match ds with
                | [] => ([], s3)
                | _ => (e :: sg ++ ds, t')
                end
              else ([], s3)
          | [] => ([], s3)
          end in
        Some (integer, frac, exp, s4)
      else None
  | [] => None
  end.

(** string[idx:idx + len(word)] == word, and what follows. *)
Fixpoint starts_with (word s : list N) : option (list N) :=
  match word, s with
  | [], _ => Some s
  | a :: word', c :: s' => if a =? c then starts_with word' s' else None
  | _ :: _, [] => None
  end.

(** dict(pairs): a later value for a key replaces the earlier one in
    place. *)
Fixpoint dict_set (k : string) (v : Json) (d : list (string * Json))
    : list (string * Json) :=
  match d with
  | [] => [(k, v)]
  | (k', v') :: d' =>
      if bool_decide (k' = k) then (k, v) :: d'
      else (k', v') :: dict_set k v d'
  end.

Definition dict_of_pairs (pairs : list (string * Json))
    : list (string * Json) :=
  fold_left (fun d kv => dict_set kv.1 kv.2 d) pairs [].

(** _scan_once of py_make_scanner with JSONArray and JSONObject. The
    loops of the two run in [array_items] and [object_items], entered
    where a value, or a key after its opening quote, is due. The fuel
    bounds the nesting. *)
Fixpoint scan_once (fuel : nat) (s : list N) (idx : nat) : scan Json :=
  match fuel with
  | O => TooDeep
  | S fuel' =>
      match s with
      | [] => StopIteration idx
      | nextchar :: s1 =>
          if nextchar =? 34 then
            match scanstring s1 (S idx) idx [] with
            | Scanned str rest pos => Scanned (JStr (string_of_cps str)) rest pos
            | StopIteration p => StopIteration p
            | DecodeError m p => DecodeError m p
            | TooDeep => TooDeep
            end
          else if nextchar =? 123 then
            (* JSONObject((string, idx + 1), ...) *)
            let (s2, end_) :=
              match s1 with
              | 34 :: _ => (s1, S idx)
              | _ => skip_ws s1 (S idx)
              end in
            match s2 with
            | 125 :: s3 => Scanned (JObj []) s3 (S end_)
            | 34 :: s3 => object_items fuel' s3 (S end_) []
            | _ =>
                DecodeError
                  "Expecting property name enclosed in double quotes" end_
            end
          else if nextchar =? 91 then
            (* JSONArray((string, idx + 1), ...) *)
            let (s2, end_) := skip_ws s1 (S idx) in
            match s2 with
            | 93 :: s3 => Scanned (JArr []) s3 (S end_)
            | _ => array_items fuel' s2 end_ []
            end
          else
            match (if nextchar =? 110 then starts_with [110; 117; 108; 108] s
                   else None) with
            | Some rest => Scanned JNull rest (idx + 4)
            | None =>
            match (if nextchar =? 116 then starts_with [116; 114; 117; 101] s
                   else None) with
            | Some rest => Scanned (JBool true) rest (idx + 4)
            | None =>
            match (if nextchar =? 102
                   then starts_with [102; 97; 108; 115; 101] s
                   else None) with
            | Some rest => Scanned (JBool false) rest (idx + 5)
            | None =>
            match match_number s with
            | Some (integer, frac, exp, rest) =>
                let len := (length integer + length frac + length exp)%nat in
                match frac, exp with
                | [], [] =>
                    Scanned
                      (JInt match integer with
                            | 45 :: ds => (- digits_value ds)%Z
                            | ds => digits_value ds
                            end)
                      rest (idx + len)
                | _, _ =>
                    Scanned (JFloat (string_of_cps (integer ++ frac ++ exp)))
                      rest (idx + len)
                end
            | None =>
            match (if nextchar =? 78 then starts_with [78; 97; 78] s
                   else None) with
            | Some rest => Scanned (JFloat "NaN") rest (idx + 3)
            | None =>
            match (if nextchar =? 73
                   then starts_with [73; 110; 102; 105; 110; 105; 116; 121] s
                   else None) with
            | Some rest => Scanned (JFloat "Infinity") rest (idx + 8)
            | None =>
            match (if nextchar =? 45
                   then starts_with
                          [45; 73; 110; 102; 105; 110; 105; 116; 121] s
                   else None) with
            | Some rest => Scanned (JFloat "-Infinity") rest (idx + 9)
            | None => StopIteration idx
            end end end end end end end
      end
  end

with array_items (fuel : nat) (s : list N) (end_ : nat) (values : list Json)
    : scan Json :=
  match fuel with
  | O => TooDeep
  | S fuel' =>
      match scan_once fuel' s end_ with
      | StopIteration p => DecodeError "Expecting value" p
      | DecodeError m p => DecodeError m p
      | TooDeep => TooDeep
      | Scanned value s1 end1 =>
          let (s2, end2) := skip_ws s1 end1 in
          match s2 with
          | 93 :: s3 => Scanned (JArr (values ++ [value])) s3 (S end2)
          | 44 :: s3 =>
              let (s4, end4) := skip_ws s3 (S end2) in
              array_items fuel' s4 end4 (values ++ [value])
          | _ => DecodeError "Expecting ',' delimiter" end2
          end
      end
  end

with object_items (fuel : nat) (s : list N) (end_ : nat)
    (pairs : list (string * Json)) : scan Json :=
  match fuel with
  | O => TooDeep
  | S fuel' =>
      match scanstring s end_ (end_ - 1) [] with
      | StopIteration p => StopIteration p
      | DecodeError m p => DecodeError m p
      | TooDeep => TooDeep
      | Scanned key s1 end1 =>
          let (s2, end2) :=
            match s1 with
            | 58 :: _ => (s1, end1)
            | _ => skip_ws s1 end1
            end in
          match s2 with
          | 58 :: s3 =>
              let (s4, end4) := skip_ws s3 (S end2) in
              match scan_once fuel' s4 end4 with
              | StopIteration p => DecodeError "Expecting value" p
              | DecodeError m p => DecodeError m p
              | TooDeep => TooDeep
              | Scanned value s5 end5 =>
                  let pairs' := pairs ++ [(string_of_cps key, value)] in
                  let (s6, end6) := skip_ws s5 end5 in
                  match s6 with
                  | 125 :: s7 =>
                      Scanned (JObj (dict_of_pairs pairs')) s7 (S end6)
                  | 44 :: s7 =>
                      let (s8, end8) := skip_ws s7 (S end6) in
                      match s8 with
                      | 34 :: s9 => object_items fuel' s9 (S end8) pairs'
                      | _ =>
                          DecodeError
                            "Expecting property name enclosed in double quotes"
                            end8
                      end
                  | _ => DecodeError "Expecting ',' delimiter" end6
                  end
              end
          | _ => DecodeError "Expecting ':' delimiter" end2
          end
      end
  end.

(** The line and the column of index [pos] in [doc], counted from
    [line] and [col] at its head. *)
Fixpoint line_col (doc : list N) (pos line col : nat) : nat * nat :=
  match pos, doc with
  | S pos', c :: doc' =>
      if c =? 10 then line_col doc' pos' (S line) 1
      else line_col doc' pos' line (S col)
  | _, _ => (line, col)
  end.

(** str(e) of JSONDecodeError(msg, doc, pos) *)
Definition json_error_str (msg : string) (doc : list N) (pos : nat)
    : string :=
  let (lineno, colno) := line_col doc pos 1 1 in
  msg +:+ ": line " +:+ pretty lineno +:+ " column " +:+ pretty colno
  +:+ " (char " +:+ pretty pos +:+ ")".

(** json.loads(s) for a str [s], with the default decoder. *)
Definition json_loads (text : string) : exn + Json :=
  let doc := cps_of_string text in
  let fail msg pos := inl (Exn JSONDecodeError (json_error_str msg doc pos)) in
  match doc with
  | 65279 :: _ => fail "Unexpected UTF-8 BOM (decode using utf-8-sig)" 0%nat
  | _ =>
      let (s0, idx) := skip_ws doc 0 in
      match scan_once (2 * length doc + 2) s0 idx with
      | StopIteration p => fail "Expecting value" p
      | DecodeError m p => fail m p
      | TooDeep =>
          inl (Exn RecursionError
                 "maximum recursion depth exceeded while decoding a JSON document")
      | Scanned obj s1 end1 =>
          let (s2, end2) := skip_ws s1 end1 in
          match s2 with
          | [] => inr obj
          | _ => fail "Extra data" end2
          end
      end
  end.

(** ** json.dumps *)

(** py_encode_basestring_ascii, one character. *)
Definition escape_ascii (c : N) : string :=
  if c =? 34 then "\" +:+ quote
  else if c =? 92 then "\\"
  else if c =? 10 then "\n"
  else if c =? 13 then "\r"
  else if c =? 9 then "\t"
  else if c =? 8 then "\b"
  else if c =? 12 then "\f"
  else if (32 <=? c) && (c <=? 126) then string_of_cps [c]
  else if c <? 65536 then "\u" +:+ hex4 c
  else
    let n := c - 65536 in
    "\u" +:+ hex4 (55296 + (n / 1024) mod 1024)
    +:+ "\u" +:+ hex4 (56320 + n mod 1024).

Definition encode_basestring_ascii (s : string) : string :=
  quote +:+ String.concat EmptyString (map escape_ascii (cps_of_string s))
  +:+ quote.

(** json.dumps(v) with the default separators; a float is printed as the
    literal it holds. *)
Fixpoint json_dumps (v : Json) : string :=
  match v with
  | JNull => "null"
  | JBool true => "true"
  | JBool false => "false"
  | JInt n => pretty n
  | JFloat lit => lit
  | JStr s => encode_basestring_ascii s
  | JArr items =>
      "[" +:+ String.concat ", " (map json_dumps items) +:+ "]"
  | JObj items =>
      "{" +:+
      String.concat ", "
        (map (fun kv =>
                encode_basestring_ascii kv.1 +:+ ": " +:+ json_dumps kv.2)
           items)
      +:+ "}"
  end.

(** ** str(datetime.timestamp()) *)

(** The digits of the fraction of a second, without trailing zeros. *)
Fixpoint fraction_digits (n : nat) (micros : Z) : string :=
  match n with
  | O => EmptyString
  | S n' =>
      if (micros =? 0)%Z then EmptyString
      else
        let unit := (10 ^ Z.of_nat n')%Z in
        pretty (micros / unit)%Z +:+ fraction_digits n' (micros mod unit)%Z
  end.

(** The float for a clock reading in microseconds since the epoch, as
    [str] prints it: the seconds, a point, and the fraction with at least
    one digit. Exact for readings between 2^13 and 2^33 seconds after the
    epoch, where the float is the one nearest to the reading and tells
    microseconds apart. *)
Definition timestamp_str (us : Z) : string :=
  let a := Z.abs us in
  let frac := fraction_digits 6 (a mod 1000000)%Z in
  (if (us <? 0)%Z then "-" else EmptyString)
  +:+ pretty (a / 1000000)%Z +:+ "."
  +:+ (if bool_decide (frac = EmptyString) then "0" else frac).

End CPython.

(** The runtime the scenarios run on. *)
Definition cpython : Runtime :=
  {| bytes_decode := CPython.bytes_decode;
     str_encode := CPython.str_encode;
     json_loads := CPython.json_loads;
     json_dumps := CPython.json_dumps;
     timestamp_str := CPython.timestamp_str |}.

(** ** Scenarios *)

(** A JSON document written with ' for the double quote. *)
Definition json_text (s : string) : string :=
  String.string_of_list_ascii
    (map (fun c => if bool_decide (c = "'"%char) then CPython.chr 34 else c)
       (String.list_ascii_of_string s)).


Definition linux_config : MCPConfig :=
  {| unity_editor_path := None;
     unity_log_file := "/tmp/unity_mcp.log";
     system := "Linux" |}.

(** A project directory with its Assets and ProjectSettings. *)
Definition project : string := "/work/Game".

Definition project_files : gmap Path node :=
  {[ PathOf project := Dir;
     joinpath (PathOf project) "Assets" := Dir;
     joinpath (PathOf project) "ProjectSettings" := Dir ]}.

(** A directory in which Assets and ProjectSettings are plain files. *)
Definition decoy_files : gmap Path node :=
  {[ PathOf project := Dir;
     joinpath (PathOf project) "Assets" := File;
     joinpath (PathOf project) "ProjectSettings" := File ]}.

(** A clock that advances by a microsecond at each reading, and one
    whose readings all fall within one tick of the timer. *)
Definition ticking_clock (n : nat) : Z := 1700000000000000 + Z.of_nat n.

Definition stalled_clock (_ : nat) : Z := 1700000000000000.

Definition fresh_manager : World :=
  UnityManager_init "/tmp" project_files ticking_clock.

Definition stalled_manager : World :=
  UnityManager_init "/tmp" project_files stalled_clock.

(** An editor that exits with a code, having written [out] and [err]. *)
Definition editor_exits (rc : Z) (out err : string) : subprocess_env :=
  {| launch_error := None;
     on_sigterm := true;
     run := Exits rc (CPython.str_encode out) (CPython.str_encode err) |}.

(** An editor that never exits by itself. *)
Definition editor_hangs : subprocess_env :=
  {| launch_error := None; on_sigterm := true; run := Hangs |}.

(** execute_unity_command on the CPython runtime with the Linux
    defaults. *)
Definition execute (env : subprocess_env) (action path : string)
    (parameters : Json) (timeout : Z) : M Json :=
  @execute_unity_command cpython linux_config env action path parameters
    timeout.

(** Scenario A: a valid project, the editor exits 0 with a success
    envelope. *)
Definition envelope : string :=
  json_text "{'Success': true, 'Data': {'count': 3}}".

Definition scenario_A : outcome Json * World :=
  execute (editor_exits 0 envelope EmptyString)
    "scene.validate" project (JObj []) 300 fresh_manager.

(** Scenario B: the editor never exits and the timeout is one second. *)
Definition scenario_B : outcome Json * World :=
  execute editor_hangs "build.run" project (JObj []) 1 fresh_manager.

(** Scenario C: the project path does not exist. *)
Definition scenario_C : outcome Json * World :=
  execute (editor_exits 0 EmptyString EmptyString)
    "scene.validate" "/nowhere" (JObj []) 300 fresh_manager.

(** Scenario D: the editor exits 1 with a message on its standard
    error. *)
Definition scenario_D : outcome Json * World :=
  execute (editor_exits 1 EmptyString "NullReferenceException")
    "scene.validate" project (JObj []) 300 fresh_manager.



(** Two calls of one action, one after the other, within one tick of the
    clock. *)
Definition scenario_same_tick : outcome Json * World :=
  execute (editor_exits 0 EmptyString EmptyString)
    "scene.validate" "/nowhere" (JObj []) 300
    (execute (editor_exits 0 EmptyString EmptyString)
       "scene.validate" "/nowhere" (JObj []) 300 stalled_manager).2.

(** Scenario B, then shutdown. *)
Definition scenario_shutdown : outcome unit * World :=
  cleanup scenario_B.2.

(** The operating system cannot start the editor: there is no file at
    the default path. *)
Definition editor_missing : subprocess_env :=
  {| launch_error :=
       Some (Exn FileNotFoundError
               "[Errno 2] No such file or directory: '/opt/Unity/Editor/Unity'");
     on_sigterm := true;
     run := Hangs |}.

(** The operating system gives up starting the editor (ETIMEDOUT). *)
Definition editor_launch_times_out : subprocess_env :=
  {| launch_error :=
       Some (Exn TimeoutError "[Errno 110] Connection timed out");
     on_sigterm := true;
     run := Hangs |}.

(** An editor that never exits by itself and ignores SIGTERM. *)
Definition editor_stuck : subprocess_env :=
  {| launch_error := None; on_sigterm := false; run := Hangs |}.

(** An editor that exits 1 and writes one byte, FF, to its standard
    error. *)
Definition editor_garbles : subprocess_env :=
  {| launch_error := None; on_sigterm := true;
     run := Exits 1 [] [Byte.xff] |}.

(** The defaults on a platform the configuration does not know. *)
Definition sunos_config : MCPConfig :=
  {| unity_editor_path := None;
     unity_log_file := "/tmp/unity_mcp.log";
     system := "SunOS" |}.

(** What the bridge prints for an action it does not know. *)
Definition unknown_action : string :=
  json_text
    "{'Success':false,'Error':'Unknown action: codegen.apply','Data':null}".

(** Calls of tools, with the defaults of their parameter models where
    the call leaves a field out. *)
Definition scan_call (path : string) : tool_call :=
  ProjectScan
    {| ProjectScanParams.project_path := path;
       ProjectScanParams.patterns := ["**/*.cs"; "**/*.prefab"];
       ProjectScanParams.include_assets := true;
       ProjectScanParams.max_depth := 10 |}.

Definition build_call (path : string) : tool_call :=
  BuildRun
    {| BuildRunParams.project_path := path;
       BuildRunParams.target := "android";
       BuildRunParams.scripting_backend := None;
       BuildRunParams.development_build := false;
       BuildRunParams.output_path := "/work/out";
       BuildRunParams.timeout_minutes := 30 |}.

Definition codegen_call (path : string) : tool_call :=
  CodegenApply
    {| CodegenApplyParams.project_path := path;
       CodegenApplyParams.file_path := "Assets/Player.cs";
       CodegenApplyParams.patch_content := "// patch";
       CodegenApplyParams.preview_only := false |}.

(** A call of a test tool that asks for edit mode. *)
Definition test_params : TestRunParams.t :=
  {| TestRunParams.project_path := project;
     TestRunParams.test_mode := "editmode";
     TestRunParams.filters := None;
     TestRunParams.output_path := "/work/results.xml";
     TestRunParams.timeout_minutes := 15;
     TestRunParams.collect_coverage := false |}.

(** What pathlib and [stat] give for the project of the scenarios. *)
Definition project_info : PathInfo :=
  {| path_name := fun _ => "Game";
     path_str := fun s => s;
     last_modified := fun _ => inr "2023-11-14T22:13:20" |}.

(** call_tool on the CPython runtime with the Linux defaults. *)
Definition call (env : subprocess_env) (c : tool_call) : M Json :=
  @call_tool cpython linux_config env c.

(** The editor is started and hangs, ignoring SIGTERM; the call times
    out. *)
Definition scenario_stuck : outcome Json * World :=
  execute editor_stuck "build.run" project (JObj []) 1 fresh_manager.




(** ** What a call may do to the world *)

(** [preserves R m]: running [m] takes any world to an [R]-related one,
    whatever its outcome. *)
Definition preserves {A} (R : relation World) (m : M A) : Prop :=
  forall w, R w (m w).2.

(** The events a call may emit: a status it assigns is one of pending,
    completed and failed, it may create a process, and it sends no
    signal. *)
Definition benign (e : event) : Prop :=
  match e with
  | EvStatus _ s => s = "pending" \/ s = "completed" \/ s = "failed"
  | EvSpawn _ => True
  | EvTerminate _ | EvKill _ => False
  end.

Fixpoint spawn_count (evs : list event) : nat :=
  match evs with
  | [] => 0
  | EvSpawn _ :: evs' => S (spawn_count evs')
  | _ :: evs' => spawn_count evs'
  end.



(** [quiet w w']: from [w] to [w'] the two registries, the files and the
    clock are as they were, no operation object was created and none
    changed its id, and the trace grew by benign events, one spawn for
    each new entry of the process table. *)
Record quiet (w w' : World) : Prop := {
  quiet_active : active_operations w' = active_operations w;
  quiet_unity : unity_processes w' = unity_processes w;
  quiet_files : files w' = files w;
  quiet_bridge : bridge_script_path w' = bridge_script_path w;
  quiet_clock : clock w' = clock w;
  quiet_reads : (clock_reads w <= clock_reads w')%nat;
  quiet_objects : length (objects w') = length (objects w);
  quiet_ids : forall r, id <$> objects w' !! r = id <$> objects w !! r;
  quiet_trace :
    exists evs, trace w' = trace w ++ evs /\ Forall benign evs /\
      length (processes w')
        = (length (processes w) + spawn_count evs)%nat;
}.

(** ** Properties *)

Section Properties.

Context {rt : Runtime}.
Variable config : MCPConfig.

Lemma alter_last {A} (f : A -> A) (l : list A) (x : A) :
  alter f (length l) (l ++ [x]) = l ++ [f x].
Proof.
  replace (length l) with (length l + 0)%nat by lia.
  by rewrite alter_app_r.
Qed.

Lemma lookup_last {A} (l : list A) (x : A) :
  (l ++ [x]) !! length l = Some x.
Proof. by rewrite list_lookup_middle. Qed.

Section Preserves.

Context (R : relation World) `{!PreOrder R}.

Lemma preserves_ret {A} (a : A) : preserves R (ret a).
Proof. intros w. reflexivity. Qed.

Lemma preserves_raise {A} (e : exn) : preserves R (@raise A e).
Proof. intros w. reflexivity. Qed.

Lemma preserves_get : preserves R get.
Proof. intros w. reflexivity. Qed.

Lemma preserves_lift {A} (r : exn + A) : preserves R (lift r).
Proof. destruct r; [apply preserves_raise | apply preserves_ret]. Qed.

Lemma preserves_modify (f : World -> World) :
  (forall w, R w (f w)) -> preserves R (modify f).
Proof. intros H w. apply H. Qed.

Lemma preserves_bind {A B} (m : M A) (k : A -> M B) :
  preserves R m -> (forall a, preserves R (k a)) -> preserves R (bind m k).
Proof.
  intros Hm Hk w. unfold bind. specialize (Hm w).
  destruct (m w) as [[a|e] w1]; simpl in *; [|done].
  etrans; [exact Hm | apply Hk].
Qed.

Lemma preserves_try_except {A} (m : M A) (h : exn -> M A) :
  preserves R m -> (forall e, preserves R (h e)) ->
  preserves R (try_except m h).
Proof.
  intros Hm Hh w. unfold try_except. specialize (Hm w).
  destruct (m w) as [[a|e] w1]; simpl in *; [done|].
  etrans; [exact Hm | apply Hh].
Qed.

Lemma preserves_try_finally {A} (m : M A) (fin : M unit) :
  preserves R m -> preserves R fin -> preserves R (try_finally m fin).
Proof.
  intros Hm Hf w. unfold try_finally. specialize (Hm w).
  destruct (m w) as [o w1]; simpl in *. specialize (Hf w1).
  destruct (fin w1) as [[u|e] w2]; simpl in *; by etrans.
Qed.

End Preserves.

Lemma spawn_count_app (l1 l2 : list event) :
  spawn_count (l1 ++ l2) = (spawn_count l1 + spawn_count l2)%nat.
Proof. induction l1 as [|[] l1 IH]; simpl; lia. Qed.

#[local] Instance quiet_preorder : PreOrder quiet.
Proof.
  split.
  - intros w. split; try done. exists []. by rewrite app_nil_r, Nat.add_0_r.
  - intros w1 w2 w3 [A1 U1 F1 B1 C1 K1 O1 I1 (e1 & T1 & G1 & P1)]
      [A2 U2 F2 B2 C2 K2 O2 I2 (e2 & T2 & G2 & P2)].
    split; [congruence .. | lia | congruence | |].
    + intros r. by rewrite I2, I1.
    + exists (e1 ++ e2). rewrite T2, T1, app_assoc, spawn_count_app.
      split_and!; [done | by apply Forall_app | lia].
Qed.

Lemma quiet_intro_same_trace w w' :
  active_operations w' = active_operations w ->
  unity_processes w' = unity_processes w ->
  files w' = files w ->
  bridge_script_path w' = bridge_script_path w ->
  clock w' = clock w ->
  (clock_reads w <= clock_reads w')%nat ->
  length (objects w') = length (objects w) ->
  (forall r, id <$> objects w' !! r = id <$> objects w !! r) ->
  trace w' = trace w ->
  length (processes w') = length (processes w) ->
  quiet w w'.
Proof.
  intros. split; try done. exists [].
  rewrite app_nil_r. simpl. split_and!; [done | constructor | lia].
Qed.

Lemma quiet_datetime_now : preserves quiet datetime_now.
Proof. intros w. apply quiet_intro_same_trace; simpl; try done. lia. Qed.

Lemma quiet_update ref f :
  (forall o, id (f o) = id o) -> preserves quiet (update ref f).
Proof.
  intros Hf w. apply quiet_intro_same_trace; simpl; try done.
  - by rewrite length_alter.
  - intros r. destruct (decide (r = ref)) as [->|Hne].
    + rewrite list_lookup_alter_eq. destruct (objects w !! ref); simpl; [|done].
      by rewrite Hf.
    + by rewrite list_lookup_alter_ne.
Qed.

Lemma quiet_emit e : benign e -> spawn_count [e] = 0%nat ->
  preserves quiet (modify (emit e)).
Proof.
  intros He Hc w. split; simpl; try done.
  exists [e]. rewrite Hc. split_and!; [done | by constructor | lia].
Qed.

Lemma quiet_assign_status ref s :
  s = "pending" \/ s = "completed" \/ s = "failed" ->
  preserves quiet (assign_status ref s).
Proof.
  intros Hs. unfold assign_status. apply preserves_bind; [apply _ | |].
  - by apply quiet_update.
  - intros _. by apply quiet_emit.
Qed.

Lemma quiet_update_process pid f : preserves quiet (update_process pid f).
Proof.
  intros w. apply quiet_intro_same_trace; simpl; try done.
  by rewrite length_alter.
Qed.

Lemma quiet_create_subprocess_exec env args dir :
  preserves quiet (create_subprocess_exec env args dir).
Proof.
  intros w. unfold create_subprocess_exec.
  destruct (launch_error env); simpl; [reflexivity|].
  split; simpl; try done.
  exists [EvSpawn (length (processes w))]. simpl.
  split_and!; [done | by repeat constructor | by rewrite length_app].
Qed.

Lemma quiet_wait_for_communicate env pid input timeout :
  preserves quiet (wait_for_communicate env pid input timeout).
Proof.
  unfold wait_for_communicate.
  apply preserves_bind; [apply _ | apply quiet_update_process |].
  intros _. destruct (run env).
  - apply preserves_bind; [apply _ | apply quiet_update_process |].
    intros _. apply preserves_ret, _.
  - apply preserves_raise, _.
Qed.

Lemma quiet_poll pid : preserves quiet (poll pid).
Proof.
  intros w. unfold poll.
  destruct (processes w !! pid) as [p|]; [destruct (state p)|]; reflexivity.
Qed.

Ltac quiet_steps :=
  repeat first
    [ apply quiet_datetime_now
    | apply quiet_update; intros []; reflexivity
    | apply quiet_assign_status; auto
    | apply quiet_create_subprocess_exec
    | apply quiet_wait_for_communicate
    | apply quiet_poll
    | apply preserves_ret, _
    | apply preserves_raise, _
    | apply preserves_get, _
    | apply preserves_lift, _
    | apply preserves_try_except; [apply _ | | intros ?]
    | apply preserves_try_finally; [apply _ | | ]
    | apply preserves_bind; [apply _ | | intros ?]
    | match goal with
      | |- preserves _ (if ?b then _ else _) => destruct b
      end ].

Lemma quiet_execute_body env operation action path parameters timeout :
  preserves quiet
    (execute_body config env operation action path parameters timeout).
Proof. unfold execute_body. quiet_steps. Qed.

Lemma quiet_execute_guarded env operation action path parameters timeout :
  preserves quiet
    (execute_guarded config env operation action path parameters timeout).
Proof.
  unfold execute_guarded.
  apply preserves_try_finally; [apply _ | | quiet_steps].
  apply preserves_try_except; [apply _ | apply quiet_execute_body |].
  intros e. quiet_steps.
Qed.

(** What every call does, whatever its outcome: it creates one operation
    object, in state pending and with the id made of the action and the
    timestamp read at entry, and registers it under that id; it leaves
    [unity_processes], the files and every other registration as they
    were; after the creation it emits only benign events, one spawn for
    each process it adds. *)
Lemma execute_frame env action path parameters timeout w :
  let w' :=
    (execute_unity_command config env action path parameters timeout w).2 in
  let ref := length (objects w) in
  let op_id := operation_id action (clock w (clock_reads w)) in
  active_operations w' = <[op_id := ref]> (active_operations w) /\
  unity_processes w' = unity_processes w /\
  files w' = files w /\
  bridge_script_path w' = bridge_script_path w /\
  length (objects w') = S ref /\
  id <$> objects w' !! ref = Some op_id /\
  (forall r, (r < ref)%nat -> id <$> objects w' !! r = id <$> objects w !! r) /\
  exists evs,
    trace w' = trace w ++ EvStatus ref "pending" :: evs /\
    Forall benign evs /\
    length (processes w') = (length (processes w) + spawn_count evs)%nat.
Proof.
  unfold execute_unity_command, bind, datetime_now, new_operation, modify.
  simpl.
  match goal with
  | |- context [execute_guarded ?c ?e ?o ?a ?p ?ps ?t ?w0] =>
      pose proof (quiet_execute_guarded e o a p ps t w0) as Hq;
      destruct (execute_guarded c e o a p ps t w0) as [out w1]
  end.
  simpl in *.
  destruct Hq as [A U F B C K O I (evs & T & G & P)]. simpl in *.
  rewrite length_app in O. simpl in O.
  split_and!; try done.
  - lia.
  - by rewrite I, lookup_last.
  - intros r Hr. by rewrite I, lookup_app_l.
  - exists evs. rewrite T, <- app_assoc. done.
Qed.

Ltac run_py :=
  unfold execute_unity_command, execute_guarded, execute_body, bind, try_finally, try_except,
    datetime_now, new_operation, modify, get, create_subprocess_exec,
    wait_for_communicate, assign_status, update, update_process, poll,
    lift, ret, raise;
  simpl.

Ltac world :=
  cbn [objects active_operations unity_processes processes files clock
       clock_reads trace bridge_script_path with_objects with_processes
       with_active_operations with_unity_processes with_files emit tick];
  rewrite ?alter_last, ?lookup_last, ?lookup_insert_eq;
  cbn [status result error start_time end_time id command project_path
       set_status set_result set_error set_end_time state set_state
       set_stdin].



(** C1, as the code has it. A call whose subprocess is created and is
    still running when the timeout fires raises TimeoutError with the
    message naming the timeout; the record is marked failed with that
    message and gets its end time. The call sends the process no signal:
    after the spawn the only event is the status change, and the process is
    still alive when the error reaches the caller. *)
Theorem execute_timeout_fails_without_terminating
    env action path parameters timeout w editor :
  validate_unity_project_path (files w) path = true ->
  get_unity_editor_path config = inr editor ->
  launch_error env = None ->
  run env = Hangs ->
  let ref := length (objects w) in
  let pid := length (processes w) in
  let msg := "Unity command timed out after " +:+ pretty timeout
             +:+ " seconds" in
  exists w' o e,
    execute_unity_command config env action path parameters timeout w
      = (Raise (Exn TimeoutError msg), w') /\
    objects w' !! ref = Some o /\
    status o = "failed" /\ error o = Some msg /\ end_time o = Some e /\
    trace w' = trace w ++
      [EvStatus ref "pending"; EvSpawn pid; EvStatus ref "failed"] /\
    alive w' pid = true.
Proof.
  intros Hv He Hl Hr.
  run_py. rewrite Hv, He, Hl, Hr. simpl.
  eexists _, _, _. split; [reflexivity|].
  unfold alive. world. rewrite <- !app_assoc. by repeat split.
Qed.

(** A call with a path that fails validation leaves the process table as
    it was. *)
Lemma execute_invalid_project env action path parameters timeout w :
  validate_unity_project_path (files w) path = false ->
  processes
    (execute_unity_command config env action path parameters timeout w).2
  = processes w.
Proof. intros Hv. run_py. by rewrite Hv. Qed.

(** C2, as the code has it. A call with a project path that fails
    validation raises ValueError naming the path and creates no process:
    the process table is as it was and no spawn is in the trace. The record
    of the call was created at entry, before the check; it is registered
    under the call's id and ends failed, with the message and an end
    time. *)
Theorem execute_invalid_project_fails_without_spawn
    env action path parameters timeout w :
  validate_unity_project_path (files w) path = false ->
  let ref := length (objects w) in
  let msg := "Invalid Unity project path: " +:+ path in
  exists w' o e,
    execute_unity_command config env action path parameters timeout w
      = (Raise (Exn ValueError msg), w') /\
    processes w' = processes w /\
    trace w' = trace w ++ [EvStatus ref "pending"; EvStatus ref "failed"] /\
    active_operations w' !! operation_id action (clock w (clock_reads w))
      = Some ref /\
    objects w' !! ref = Some o /\
    status o = "failed" /\ error o = Some msg /\ end_time o = Some e.
Proof.
  intros Hv.
  run_py. rewrite Hv. simpl.
  eexists _, _, _. split; [reflexivity|].
  world. rewrite <- !app_assoc. by repeat split.
Qed.



Lemma string_app_inj_r (a x y : string) : a +:+ x = a +:+ y -> x = y.
Proof. induction a as [|c a IH]; simpl; [done|]. intros [=]. auto. Qed.

(** C8, as the code has it. The id of a call is its action, an
    underscore and the timestamp read at entry, and the call registers
    its record under that id. Two calls of one action get the same id
    exactly when their timestamps print the same. *)
Theorem operation_id_from_action_and_timestamp
    env action path parameters timeout w :
  let w' :=
    (execute_unity_command config env action path parameters timeout w).2 in
  let ref := length (objects w) in
  let stamp := clock w (clock_reads w) in
  id <$> objects w' !! ref = Some (action +:+ "_" +:+ timestamp_str stamp) /\
  active_operations w' !! (action +:+ "_" +:+ timestamp_str stamp)
    = Some ref /\
  forall t1 t2,
    operation_id action t1 = operation_id action t2 <->
    timestamp_str t1 = timestamp_str t2.
Proof.
  intros w' ref stamp.
  destruct (execute_frame env action path parameters timeout w)
    as (Ha & _ & _ & _ & _ & Hi & _).
  fold w' in Ha, Hi. split_and!.
  - exact Hi.
  - rewrite Ha. apply lookup_insert_eq.
  - intros t1 t2. unfold operation_id. split.
    + intros H. apply string_app_inj_r in H. by apply string_app_inj_r in H.
    + by intros ->.
Qed.

(** C9, as the code has it. Validation accepts a path exactly when it
    names a directory in which entries called Assets and ProjectSettings
    exist, of whatever kind; and a call creates a process only for a path
    that passes this check on the files it finds at entry. *)
Theorem validate_unity_project_path_spec
    env action path parameters timeout w :
  (forall fs p,
     validate_unity_project_path fs p = true <->
     fs !! PathOf p = Some Dir /\
     is_Some (fs !! joinpath (PathOf p) "Assets") /\
     is_Some (fs !! joinpath (PathOf p) "ProjectSettings")) /\
  let w' :=
    (execute_unity_command config env action path parameters timeout w).2 in
  (length (processes w') <> length (processes w) ->
   validate_unity_project_path (files w) path = true).
Proof.
  split.
  - intros fs p. unfold validate_unity_project_path, path_exists, is_dir.
    rewrite !andb_true_iff, !bool_decide_eq_true.
    split.
    + by intros [[[_ Hd] Ha] Hs].
    + intros (Hd & Ha & Hs). by rewrite Hd.
  - intros w' Hne.
    destruct (validate_unity_project_path (files w) path) eqn:Hv; [done|].
    subst w'. by rewrite execute_invalid_project in Hne.
Qed.

(** *** cleanup *)

Lemma cleanup_process_returns pid w :
  (cleanup_process pid w).1 = Return tt.
Proof.
  unfold cleanup_process, try_except, bind, poll, terminate, kill, modify,
    update_process, ret.
  destruct (processes w !! pid) as [p|] eqn:Hp; simpl; [|done].
  destruct (state p) eqn:Hs; simpl; [|done].
  rewrite list_lookup_alter_eq, Hp. simpl. rewrite Hs.
  destruct (heeds_sigterm p); simpl; [done|]. by rewrite Hs.
Qed.

Lemma cleanup_process_kills pid w :
  alive (cleanup_process pid w).2 pid = false.
Proof.
  unfold cleanup_process, try_except, bind, poll, terminate, kill, modify,
    update_process, ret, alive.
  destruct (processes w !! pid) as [p|] eqn:Hp; simpl; [|by rewrite Hp].
  destruct (state p) eqn:Hs; simpl; [|by rewrite Hp, Hs].
  rewrite list_lookup_alter_eq, Hp. simpl. rewrite Hs.
  destruct (heeds_sigterm p) eqn:Hh; simpl.
  - rewrite list_lookup_alter_eq, Hp. simpl. by rewrite Hs, Hh.
  - rewrite Hs. simpl. rewrite !list_lookup_alter_eq, Hp. simpl.
    by rewrite Hs, Hh, Hs.
Qed.

Lemma cleanup_process_others pid q w :
  q <> pid ->
  processes (cleanup_process pid w).2 !! q = processes w !! q.
Proof.
  intros Hne.
  unfold cleanup_process, try_except, bind, poll, terminate, kill, modify,
    update_process, ret.
  destruct (processes w !! pid) as [p|] eqn:Hp; simpl; [|done].
  destruct (state p) eqn:Hs; simpl; [|done].
  rewrite list_lookup_alter_eq, Hp. simpl. rewrite Hs.
  destruct (heeds_sigterm p); simpl.
  - by rewrite list_lookup_alter_ne.
  - rewrite Hs. simpl. by rewrite !list_lookup_alter_ne.
Qed.

Lemma cleanup_process_stays_dead pid q w :
  alive w q = false -> alive (cleanup_process pid w).2 q = false.
Proof.
  intros Hq. destruct (decide (q = pid)) as [->|Hne].
  - apply cleanup_process_kills.
  - unfold alive in *. by rewrite cleanup_process_others.
Qed.

Lemma cleanup_process_fields pid w :
  let w' := (cleanup_process pid w).2 in
  active_operations w' = active_operations w /\
  unity_processes w' = unity_processes w /\
  files w' = files w /\
  bridge_script_path w' = bridge_script_path w /\
  objects w' = objects w.
Proof.
  unfold cleanup_process, try_except, bind, poll, terminate, kill, modify,
    update_process, ret.
  destruct (processes w !! pid) as [p|] eqn:Hp; simpl; [|done].
  destruct (state p) eqn:Hs; simpl; [|done].
  rewrite list_lookup_alter_eq, Hp. simpl. rewrite Hs.
  destruct (heeds_sigterm p); simpl; [done|]. by rewrite Hs.
Qed.

Lemma for_each_cleanup (items : list (string * nat)) w :
  let r := for_each items (fun item => cleanup_process item.2) w in
  r.1 = Return tt /\
  active_operations r.2 = active_operations w /\
  unity_processes r.2 = unity_processes w /\
  files r.2 = files w /\
  bridge_script_path r.2 = bridge_script_path w /\
  objects r.2 = objects w /\
  (forall q, alive w q = false -> alive r.2 q = false) /\
  (forall q, q ∈ items.*2 -> alive r.2 q = false) /\
  (forall q, q ∉ items.*2 -> processes r.2 !! q = processes w !! q).
Proof.
  revert w. induction items as [|[k pid] items IH]; intros w; simpl.
  - split_and!; try done. intros q Hq. by apply not_elem_of_nil in Hq.
  - unfold bind.
    pose proof (cleanup_process_returns pid w) as Hr.
    destruct (cleanup_process pid w) as [o w1] eqn:Hc. simpl in Hr. subst o.
    destruct (IH w1) as (I1 & I2 & I3 & I4 & I5 & I6 & I7 & I8 & I9).
    pose proof (cleanup_process_fields pid w) as F. rewrite Hc in F.
    destruct F as (F1 & F2 & F3 & F4 & F5). simpl in *.
    split_and!; try congruence.
    + intros q Hq. apply I7.
      pose proof (cleanup_process_stays_dead pid q w Hq) as H.
      by rewrite Hc in H.
    + intros q Hq. apply elem_of_cons in Hq as [->|Hq]; [|by apply I8].
      apply I7. pose proof (cleanup_process_kills pid w) as H.
      by rewrite Hc in H.
    + intros q Hq. apply not_elem_of_cons in Hq as [Hne Hq].
      rewrite I9 by done.
      pose proof (cleanup_process_others pid q w Hne) as H.
      by rewrite Hc in H.
Qed.

(** What [cleanup] does: it never raises; it terminates every process
    registered in [unity_processes] that is still running, and touches no
    other process; it empties both registries; it removes the bridge
    script when that path names a file. *)
Lemma cleanup_spec w :
  let r := cleanup w in
  r.1 = Return tt /\
  active_operations r.2 = ∅ /\
  unity_processes r.2 = ∅ /\
  (forall k pid, unity_processes w !! k = Some pid -> alive r.2 pid = false) /\
  (forall q, (forall k, unity_processes w !! k <> Some q) ->
     processes r.2 !! q = processes w !! q) /\
  (files w !! bridge_script_path w <> Some Dir ->
     files r.2 !! bridge_script_path w = None).
Proof.
  unfold cleanup, bind, get, modify, try_except, ret, os_remove, path_exists.
  simpl.
  destruct (for_each_cleanup (map_to_list (unity_processes w)) w)
    as (I1 & I2 & I3 & I4 & I5 & I6 & I7 & I8 & I9).
  destruct (for_each _ _ w) as [o w1]. simpl in *. subst o. simpl.
  assert (Hal : forall pid,
    alive w1 pid = false ->
    forall w2, processes w2 = processes w1 -> alive w2 pid = false).
  { intros pid H w2 E. unfold alive in *. by rewrite E. }
  rewrite I4, I5.
  destruct (files w !! bridge_script_path w) as [[]|] eqn:Hf; simpl;
    rewrite ?I4, ?I5, ?Hf; simpl.
  all: split_and!; try done.
  all: try (intros k pid Hk; eapply Hal; [|reflexivity]; apply I8;
            apply list_elem_of_fmap; exists (k, pid); split; [done|];
            by apply elem_of_map_to_list).
  all: try (intros q Hq; apply I9; intros Hin;
            apply list_elem_of_fmap in Hin as ([k q'] & -> & Hin);
            apply elem_of_map_to_list in Hin; by apply (Hq k)).
  - intros _. apply lookup_delete_eq.
Qed.

(** *** Every path of a call *)



Ltac ordered Hmono :=
  eexists _, _, _; world; (split; [reflexivity|]); world;
  (split; [reflexivity|]); (split; [reflexivity|]);
  split; apply Hmono; lia.

(** X2. The times of a record, on every path. Under a clock that does
    not run backwards the record of a call has a start time and an end
    time with the start not after the end, whether the call returned or
    raised, and the timestamp in the id of the call, which is read first,
    is not after the start time. *)
Theorem execute_times_ordered env action path parameters timeout w :
  (forall i j, (i <= j)%nat -> clock w i <= clock w j) ->
  let r := execute_unity_command config env action path parameters timeout w in
  exists o s t,
    objects r.2 !! length (objects w) = Some o /\
    start_time o = Some s /\ end_time o = Some t /\
    clock w (clock_reads w) <= s /\ s <= t.
Proof.
  intros Hmono. run_py.
  destruct (validate_unity_project_path (files w) path); simpl;
    [|ordered Hmono].
  destruct (get_unity_editor_path config) as [e|editor]; simpl.
  { destruct (bool_decide (exn_cls e = TimeoutError)); simpl;
      ordered Hmono. }
  destruct (launch_error env) as [e|]; simpl.
  { destruct (bool_decide (exn_cls e = TimeoutError)); simpl;
      ordered Hmono. }
  destruct (run env) as [rc out err|]; simpl; [|ordered Hmono].
  rewrite !alter_last, lookup_last. simpl.
  destruct (bool_decide (Some rc = Some 0)); simpl.
  - destruct (bytes_decode out) as [e|text]; simpl.
    { destruct (bool_decide (exn_cls e = JSONDecodeError)); simpl;
        [|destruct (bool_decide (exn_cls e = TimeoutError)); simpl];
        ordered Hmono. }
    destruct (json_loads text) as [e|v]; simpl.
    { destruct (bool_decide (exn_cls e = JSONDecodeError)); simpl;
        [|destruct (bool_decide (exn_cls e = TimeoutError)); simpl];
        ordered Hmono. }
    ordered Hmono.
  - destruct (bytes_decode err) as [e|text]; simpl;
      [destruct (bool_decide (exn_cls e = TimeoutError)); simpl|];
      ordered Hmono.
Qed.


(** X4. When the operating system cannot start the editor, no process
    exists for the call, and its record went from pending to failed with
    the [str] of the exception the caller gets as its error. That
    exception is the one of [create_subprocess_exec] itself, unchanged
    (the executable is missing, say), in every case but one: a
    TimeoutError of the launch is taken by the handler of the timeout,
    as the timeout of [wait_for] is, and the caller gets the
    TimeoutError that says the command timed out after the timeout of
    the call. *)
Theorem execute_launch_failure_reraised
    env action path parameters timeout w editor e :
  validate_unity_project_path (files w) path = true ->
  get_unity_editor_path config = inr editor ->
  launch_error env = Some e ->
  let ref := length (objects w) in
  let raised :=
    if bool_decide (exn_cls e = TimeoutError) then
      Exn TimeoutError
        ("Unity command timed out after " +:+ pretty timeout +:+ " seconds")
    else e in
  exists w' o,
    execute_unity_command config env action path parameters timeout w
      = (Raise raised, w') /\
    processes w' = processes w /\
    trace w' = trace w ++ [EvStatus ref "pending"; EvStatus ref "failed"] /\
    objects w' !! ref = Some o /\
    status o = "failed" /\ error o = Some (exn_str raised).
Proof.
  intros Hv He Hl.
  run_py. rewrite Hv, He, Hl. simpl.
  destruct (bool_decide (exn_cls e = TimeoutError)); simpl;
    (eexists _, _; split; [reflexivity|]);
    world; rewrite <- !app_assoc; by repeat split.
Qed.

(** X5. With no editor path configured, on a platform other than
    Darwin, Windows and Linux, a call for a valid project raises
    ValueError naming the platform, and starts no process; the record of
    the call ends failed with that message. *)
Theorem execute_unsupported_platform
    env action path parameters timeout w :
  validate_unity_project_path (files w) path = true ->
  unity_editor_path config = None \/
    unity_editor_path config = Some EmptyString ->
  system config <> "Darwin" ->
  system config <> "Windows" ->
  system config <> "Linux" ->
  let ref := length (objects w) in
  let msg := "Unsupported platform: " +:+ system config in
  exists w' o,
    execute_unity_command config env action path parameters timeout w
      = (Raise (Exn ValueError msg), w') /\
    processes w' = processes w /\
    objects w' !! ref = Some o /\
    status o = "failed" /\ error o = Some msg.
Proof.
  intros Hv Hp Hd Hw Hl.
  assert (He : get_unity_editor_path config
               = inl (Exn ValueError
                        ("Unsupported platform: " +:+ system config))).
  { unfold get_unity_editor_path, default_unity_editor_path.
    rewrite !bool_decide_eq_false_2 by done.
    by destruct Hp as [-> | ->]. }
  run_py. rewrite Hv, He. simpl.
  eexists _, _. split; [reflexivity|].
  world. by repeat split.
Qed.

(** X6. A stream of the editor that is not valid UTF-8 wins over the
    exit code. When the call decodes the standard output (exit code zero)
    or the standard error (any other code) and the bytes do not decode,
    the UnicodeDecodeError is what the caller gets: not the ValueError of
    unparsable output, and not the RuntimeError that carries the exit
    code. The record ends failed with the [str] of the decoding error. *)
Theorem execute_undecodable_stream
    env action path parameters timeout w editor rc out err e :
  validate_unity_project_path (files w) path = true ->
  get_unity_editor_path config = inr editor ->
  launch_error env = None ->
  run env = Exits rc out err ->
  bytes_decode (if bool_decide (rc = 0) then out else err) = inl e ->
  exn_cls e = UnicodeDecodeError ->
  let ref := length (objects w) in
  exists w' o,
    execute_unity_command config env action path parameters timeout w
      = (Raise e, w') /\
    objects w' !! ref = Some o /\
    status o = "failed" /\ error o = Some (exn_str e) /\ result o = None.
Proof.
  intros Hv He Hl Hr Hd Hc.
  run_py. rewrite Hv, He, Hl, Hr. simpl.
  rewrite !alter_last, lookup_last. simpl.
  destruct (decide (rc = 0)) as [-> | Hrc].
  - rewrite bool_decide_eq_true_2 in Hd by done.
    rewrite bool_decide_eq_true_2 by done. rewrite Hd. simpl.
    repeat (rewrite Hc; simpl).
    eexists _, _. split; [reflexivity|].
    world. by repeat split.
  - rewrite bool_decide_eq_false_2 in Hd by done.
    rewrite bool_decide_eq_false_2 by congruence. rewrite Hd. simpl.
    repeat (rewrite Hc; simpl).
    eexists _, _. split; [reflexivity|].
    world. by repeat split.
Qed.

(** X7. A call changes the registries of the manager in one way only:
    it adds its record to [active_operations] under the id of the call.
    Every id registered before the call is registered after it, and the
    entry of the call is still there when the call has ended, whether it
    returned or raised: nothing but [cleanup] takes an operation out.
    [unity_processes], the files and the path of the bridge script are
    as they were. *)
Theorem execute_only_adds_to_tracker
    env action path parameters timeout w :
  let w' :=
    (execute_unity_command config env action path parameters timeout w).2 in
  let op_id := operation_id action (clock w (clock_reads w)) in
  active_operations w'
    = <[op_id := length (objects w)]> (active_operations w) /\
  dom (active_operations w) ⊆ dom (active_operations w') /\
  unity_processes w' = unity_processes w /\
  files w' = files w /\
  bridge_script_path w' = bridge_script_path w.
Proof.
  intros w' op_id.
  destruct (execute_frame env action path parameters timeout w)
    as (Ha & Hu & Hf & Hb & _).
  fold w' in Ha, Hu, Hf, Hb. fold op_id in Ha.
  split_and!; [done | | done | done | done].
  rewrite Ha, dom_insert. set_solver.
Qed.

(** X8. The outcome of a call does not depend on the history of the
    manager. Two calls with the same arguments and the same behaviour of
    the editor, made in any two states of the manager in which the
    project path validates alike, return the same value or raise the
    same exception: the records and processes of earlier calls, the
    registries and the clock have no part in it. *)
Theorem execute_outcome_independent_of_history
    env action path parameters timeout w1 w2 :
  validate_unity_project_path (files w1) path
    = validate_unity_project_path (files w2) path ->
  (execute_unity_command config env action path parameters timeout w1).1
  = (execute_unity_command config env action path parameters timeout w2).1.
Proof.
  intros Hv. run_py. rewrite Hv.
  destruct (validate_unity_project_path (files w2) path); simpl; [|done].
  destruct (get_unity_editor_path config) as [e|editor]; simpl.
  { by destruct (bool_decide (exn_cls e = TimeoutError)). }
  destruct (launch_error env) as [e|]; simpl.
  { by destruct (bool_decide (exn_cls e = TimeoutError)). }
  destruct (run env) as [rc out err|]; simpl; [|done].
  rewrite !alter_last, !lookup_last. simpl.
  destruct (bool_decide (Some rc = Some 0)); simpl.
  - destruct (bytes_decode out) as [e|text]; simpl.
    { destruct (bool_decide (exn_cls e = JSONDecodeError)); simpl;
        [|destruct (bool_decide (exn_cls e = TimeoutError)); simpl];
        done. }
    destruct (json_loads text) as [e|v]; simpl; [|done].
    destruct (bool_decide (exn_cls e = JSONDecodeError)); simpl;
      [|destruct (bool_decide (exn_cls e = TimeoutError)); simpl];
      done.
  - destruct (bytes_decode err) as [e|text]; simpl;
      [destruct (bool_decide (exn_cls e = TimeoutError)); simpl|];
      done.
Qed.


(** *** The editor path *)

(** X10. [get_unity_editor_path]: a configured path that is not empty is
    returned as it is, on every platform; the path returned is never
    empty; and the call fails exactly when no path is configured (none,
    or the empty string) and the platform is none of Darwin, Windows and
    Linux, with a ValueError that names the platform. *)
Theorem get_unity_editor_path_spec :
  (forall p,
     unity_editor_path config = Some p -> p <> EmptyString ->
     get_unity_editor_path config = inr p) /\
  (forall p, get_unity_editor_path config = inr p -> p <> EmptyString) /\
  (forall e,
     get_unity_editor_path config = inl e <->
     (unity_editor_path config = None \/
      unity_editor_path config = Some EmptyString) /\
     (system config ∉ ["Darwin"; "Windows"; "Linux"]) /\
     e = Exn ValueError ("Unsupported platform: " +:+ system config)).
Proof.
  assert (Hdef : forall r,
    default_unity_editor_path config = r ->
    match r with
    | inr p => p <> EmptyString
    | inl e =>
        (system config ∉ ["Darwin"; "Windows"; "Linux"]) /\
        e = Exn ValueError ("Unsupported platform: " +:+ system config)
    end).
  { intros r <-. unfold default_unity_editor_path.
    repeat case_bool_decide; try done.
    split; [|done]. rewrite !elem_of_cons, elem_of_nil. tauto. }
  assert (Hsup : system config ∉ ["Darwin"; "Windows"; "Linux"] ->
    default_unity_editor_path config
    = inl (Exn ValueError ("Unsupported platform: " +:+ system config))).
  { rewrite !elem_of_cons, elem_of_nil. intros Hn.
    unfold default_unity_editor_path.
    rewrite !bool_decide_eq_false_2; [done | tauto ..]. }
  unfold get_unity_editor_path. split_and!.
  - intros p -> Hp. by rewrite bool_decide_eq_false_2.
  - intros p. destruct (unity_editor_path config) as [q|].
    + case_bool_decide as Hq.
      * intros H. exact (Hdef _ H).
      * by intros [= <-].
    + intros H. exact (Hdef _ H).
  - intros e. split.
    + destruct (unity_editor_path config) as [q|].
      * case_bool_decide as Hq; [|done]. subst q.
        intros H. destruct (Hdef _ H). auto.
      * intros H. destruct (Hdef _ H). auto.
    + intros ([-> | ->] & Hs & ->); simpl; auto.
Qed.

(** *** cleanup, in full *)

Lemma cleanup_files w :
  let r := cleanup w in
  bridge_script_path r.2 = bridge_script_path w /\
  objects r.2 = objects w /\
  files r.2
    = if bool_decide (files w !! bridge_script_path w = Some File)
      then delete (bridge_script_path w) (files w)
      else files w.
Proof.
  unfold cleanup, bind, get, modify, try_except, ret, os_remove, path_exists.
  simpl.
  destruct (for_each_cleanup (map_to_list (unity_processes w)) w)
    as (I1 & I2 & I3 & I4 & I5 & I6 & _).
  destruct (for_each _ _ w) as [o w1]. simpl in *. subst o. simpl.
  rewrite I4, I5.
  destruct (files w !! bridge_script_path w) as [[]|] eqn:Hf; simpl;
    rewrite ?I4, ?I5, ?Hf; simpl; by rewrite ?I4, ?I5.
Qed.

(** A manager with nothing registered and no file at the path of the
    bridge script is left by [cleanup] as it is. *)
Lemma cleanup_fixed w :
  active_operations w = ∅ ->
  unity_processes w = ∅ ->
  files w !! bridge_script_path w <> Some File ->
  cleanup w = (Return tt, w).
Proof.
  destruct w as [ao up bp os ps fs ck cr tr]. simpl. intros -> -> Hf.
  unfold cleanup, bind, get, modify, try_except, ret, os_remove, path_exists.
  simpl. rewrite map_to_list_empty. simpl.
  destruct (fs !! bp) as [[]|] eqn:Hb; simpl; rewrite ?Hb; try done.
Qed.

(** X11. [cleanup] never raises, in whatever state it finds the manager.
    After it both registries are empty; every process registered in
    [unity_processes] has exited; a process registered nowhere is as it
    was, running or not; the operation objects are as they were; and the
    file system differs from the one before by the bridge script at most:
    a plain file at its path is removed, a directory there (the error of
    [os.remove] is swallowed) or nothing there leaves the files as they
    are. *)
Theorem cleanup_contract w :
  let r := cleanup w in
  r.1 = Return tt /\
  active_operations r.2 = ∅ /\
  unity_processes r.2 = ∅ /\
  (forall k pid, unity_processes w !! k = Some pid -> alive r.2 pid = false) /\
  (forall q, (forall k, unity_processes w !! k <> Some q) ->
     processes r.2 !! q = processes w !! q) /\
  objects r.2 = objects w /\
  files r.2
    = if bool_decide (files w !! bridge_script_path w = Some File)
      then delete (bridge_script_path w) (files w)
      else files w.
Proof.
  intros r.
  destruct (cleanup_spec w) as (H1 & H2 & H3 & H4 & H5 & _).
  destruct (cleanup_files w) as (_ & H6 & H7).
  by split_and!.
Qed.

(** X12. One round of the loop of [cleanup], for a process of the table.
    A process that has exited gets no signal and nothing changes, its
    return code included. A running process gets SIGTERM; if it heeds the
    signal that is all, and if it is still running at the second poll it
    gets SIGKILL. Either way the round returns, and the process has
    exited. *)
Theorem cleanup_process_escalates pid p w :
  processes w !! pid = Some p ->
  let r := cleanup_process pid w in
  r.1 = Return tt /\
  match state p with
  | Exited rc => r.2 = w
  | Running =>
      if heeds_sigterm p then
        trace r.2 = trace w ++ [EvTerminate pid] /\
        state <$> processes r.2 !! pid = Some (Exited (-15))
      else
        trace r.2 = trace w ++ [EvTerminate pid; EvKill pid] /\
        state <$> processes r.2 !! pid = Some (Exited (-9))
  end.
Proof.
  intros Hp r. subst r.
  unfold cleanup_process, try_except, bind, poll, terminate, kill, modify,
    update_process, ret.
  rewrite Hp. destruct (state p) eqn:Hs; simpl; [|done].
  rewrite list_lookup_alter_eq, Hp. simpl. rewrite Hs.
  destruct (heeds_sigterm p) eqn:Hh; simpl.
  - rewrite list_lookup_alter_eq, Hp. simpl. by rewrite Hs, Hh.
  - rewrite Hs. simpl. rewrite !list_lookup_alter_eq, Hp. simpl.
    rewrite Hs, Hh, Hs. simpl. by rewrite <- app_assoc.
Qed.

(** X13. [cleanup] is idempotent: a second [cleanup] right after the
    first returns and changes nothing. *)
Theorem cleanup_idempotent w :
  cleanup (cleanup w).2 = (Return tt, (cleanup w).2).
Proof.
  destruct (cleanup_spec w) as (_ & Ha & Hu & _).
  destruct (cleanup_files w) as (Hb & _ & Hf).
  apply cleanup_fixed; [done | done |].
  rewrite Hb, Hf. case_bool_decide as Hc.
  - by rewrite lookup_delete_eq.
  - done.
Qed.

(** X14. A manager that is created and cleaned up, with nothing in
    between, has written the bridge script under the temporary directory
    and removed it again: the files are those found at creation without
    the bridge script, so exactly those found when no file of that name
    was there. The path of the script is taken not to name a directory:
    there [write_text] fails and no manager is created. *)
Theorem init_then_cleanup_restores_files tmpdir fs clk :
  let bridge := joinpath (PathOf tmpdir) "unity_mcp_bridge.cs" in
  fs !! bridge <> Some Dir ->
  let m := UnityManager_init tmpdir fs clk in
  files m !! bridge = Some File /\
  (cleanup m).1 = Return tt /\
  files (cleanup m).2 = delete bridge fs /\
  (fs !! bridge = None -> files (cleanup m).2 = fs).
Proof.
  intros bridge _ m.
  destruct (cleanup_spec m) as (Hr & _).
  destruct (cleanup_files m) as (_ & _ & Hf).
  assert (Hb : files m !! bridge_script_path m = Some File)
    by apply lookup_insert_eq.
  rewrite bool_decide_eq_true_2 in Hf by done.
  assert (Hd : files (cleanup m).2 = delete bridge fs).
  { rewrite Hf. apply delete_insert_eq. }
  split_and!; [exact Hb | exact Hr | exact Hd |].
  intros Hn. rewrite Hd. by apply delete_id.
Qed.

(** *** The tools *)

(** The outcome of a call on three of its paths. *)
Lemma execute_invalid_result env action path parameters timeout w :
  validate_unity_project_path (files w) path = false ->
  exists w' o,
    execute_unity_command config env action path parameters timeout w
      = (Raise (Exn ValueError ("Invalid Unity project path: " +:+ path)),
         w') /\
    processes w' = processes w /\
    objects w' = objects w ++ [o] /\
    status o = "failed" /\
    error o = Some ("Invalid Unity project path: " +:+ path).
Proof.
  intros Hv. run_py. rewrite Hv. simpl.
  eexists _, _. split; [reflexivity|].
  world. by repeat split.
Qed.

Lemma execute_returns env action path parameters timeout w
    editor out err text v :
  validate_unity_project_path (files w) path = true ->
  get_unity_editor_path config = inr editor ->
  launch_error env = None ->
  run env = Exits 0 out err ->
  bytes_decode out = inr text ->
  json_loads text = inr v ->
  exists w' o,
    execute_unity_command config env action path parameters timeout w
      = (Return v, w') /\
    objects w' = objects w ++ [o] /\
    status o = "completed" /\ result o = as_optional v.
Proof.
  intros Hv He Hl Hr Hd Hj.
  run_py. rewrite Hv, He, Hl, Hr. simpl.
  rewrite !alter_last, lookup_last. simpl. rewrite Hd. simpl. rewrite Hj. simpl.
  eexists _, _. split; [reflexivity|].
  world. by repeat split.
Qed.

Lemma execute_times_out env action path parameters timeout w editor :
  validate_unity_project_path (files w) path = true ->
  get_unity_editor_path config = inr editor ->
  launch_error env = None ->
  run env = Hangs ->
  exists w',
    execute_unity_command config env action path parameters timeout w
      = (Raise (Exn TimeoutError
                  ("Unity command timed out after " +:+ pretty timeout
                   +:+ " seconds")), w') /\
    alive w' (length (processes w)) = true.
Proof.
  intros Hv He Hl Hr.
  run_py. rewrite Hv, He, Hl, Hr. simpl.
  eexists. split; [reflexivity|].
  unfold alive. by world.
Qed.



(** Every tool is one shape: two of them check the project path first,
    and each then runs one command of the manager and turns its outcome
    into a response. *)
Lemma call_tool_cases c :
  exists action parameters more, forall env w,
    call_tool config env c w =
      if match c with ProjectScan _ | BuildRun _ => true | _ => false end
         && negb (validate_unity_project_path (files w) (call_project_path c))
      then
        (Return
           (error_response
              ("Invalid Unity project path: " +:+ call_project_path c)), w)
      else
        match execute_unity_command config env action (call_project_path c)
                parameters (call_timeout c) w with
        | (Return result, w') => (Return (success_response result more), w')
        | (Raise e, w') => (Return (error_response (exn_str e)), w')
        end.
Proof.
  destruct c; eexists _, _, _; intros env w;
    unfold call_tool, project_scan, build_run, test_playmode, test_editmode,
      scene_validate, asset_audit, codegen_apply, editor_exec, perf_profile,
      call_project_path, call_timeout, try_except, bind, get, ret;
    cbn [andb];
    try (destruct (validate_unity_project_path _ _); cbn [negb]);
    try reflexivity;
    lazymatch goal with
    | |- ?lhs = ?rhs =>
        lazymatch lhs with
        | context [execute_unity_command config env ?a _ ?ps _ w] =>
            lazymatch rhs with
            | context [execute_unity_command config env ?a' _ ?ps' _ w] =>
                unify a a'; unify ps ps'
            end
        end
    end;
    destruct (execute_unity_command _ _ _ _ _ _ _) as [[result|e] w'];
    reflexivity.
Qed.


(** X16. Every tool answers a project path that fails validation with
    the same response, success false and the error naming the path, and
    starts no process. What it leaves behind differs: [project_scan] and
    [build_run] check the path themselves and leave the manager as it
    was, while the other tools hand the path to the manager, whose failed
    record of the call stays in the tracker. *)
Theorem tool_rejects_invalid_project env c w :
  validate_unity_project_path (files w) (call_project_path c) = false ->
  let r := call_tool config env c w in
  let msg := "Invalid Unity project path: " +:+ call_project_path c in
  r.1 = Return (JObj [("success", JBool false); ("error", JStr msg)]) /\
  processes r.2 = processes w /\
  match c with
  | ProjectScan _ | BuildRun _ => r.2 = w
  | _ =>
      exists o,
        objects r.2 = objects w ++ [o] /\
        status o = "failed" /\ error o = Some msg
  end.
Proof.
  intros Hv r msg. subst r msg.
  destruct (call_tool_cases c) as (action & parameters & more & ->).
  rewrite Hv. cbn [negb].
  destruct (execute_invalid_result env action (call_project_path c)
              parameters (call_timeout c) w Hv)
    as (w' & o & He & Hp & Ho & Hs & Hm).
  destruct c; cbn [andb]; try done;
    rewrite He; cbn [fst snd]; (split_and!; [done | done |]);
    by exists o.
Qed.

(** X17. A tool reports success on the exit code and the shape of the
    output alone. When the editor exits with code zero and prints a JSON
    object, the tool returns success true, whatever that object says
    under Success or Error, with the value it holds under Data as the
    data, and the empty dict when it has no such key. *)
Theorem tool_success_ignores_editor_flag
    env c w editor out err text items :
  validate_unity_project_path (files w) (call_project_path c) = true ->
  get_unity_editor_path config = inr editor ->
  launch_error env = None ->
  run env = Exits 0 out err ->
  bytes_decode out = inr text ->
  json_loads text = inr (JObj items) ->
  exists more,
    (call_tool config env c w).1
    = Return
        (JObj (("success", JBool true)
               :: ("data",
                   match dict_lookup "Data" items with
                   | Some data => data
                   | None => JObj []
                   end)
               :: more)).
Proof.
  intros Hv He Hl Hr Hd Hj.
  destruct (call_tool_cases c) as (action & parameters & more & Hc).
  exists more. rewrite Hc, Hv. cbn [negb]. rewrite andb_false_r.
  destruct (execute_returns env action (call_project_path c) parameters
              (call_timeout c) w editor out err text (JObj items)
              Hv He Hl Hr Hd Hj)
    as (w' & o & -> & _).
  reflexivity.
Qed.

(** X18. Output of the editor that is JSON but no object is a success
    for the manager and a failure for the tool. When the editor exits
    with code zero and prints a JSON value that is not an object, the
    manager returns it and marks the record completed with it as the
    result ([None] when it is null), and the tool, which asks the value
    for its Data, returns success false with the message of the
    AttributeError. *)
Theorem tool_fails_on_output_without_get
    env c w editor out err text v :
  validate_unity_project_path (files w) (call_project_path c) = true ->
  get_unity_editor_path config = inr editor ->
  launch_error env = None ->
  run env = Exits 0 out err ->
  bytes_decode out = inr text ->
  json_loads text = inr v ->
  (forall items, v <> JObj items) ->
  let r := call_tool config env c w in
  r.1 = Return
          (JObj [("success", JBool false);
                 ("error",
                  JStr ("'" +:+ type_name v
                        +:+ "' object has no attribute 'get'"))]) /\
  exists o,
    objects r.2 = objects w ++ [o] /\
    status o = "completed" /\ result o = as_optional v.
Proof.
  intros Hv He Hl Hr Hd Hj Hn r. subst r.
  destruct (call_tool_cases c) as (action & parameters & more & ->).
  rewrite Hv. cbn [negb]. rewrite andb_false_r.
  destruct (execute_returns env action (call_project_path c) parameters
              (call_timeout c) w editor out err text v Hv He Hl Hr Hd Hj)
    as (w' & o & -> & Ho & Hs & Hres).
  cbn [fst snd]. split; [|by exists o].
  unfold success_response, get_default.
  destruct v; try reflexivity. by destruct (Hn items).
Qed.

(** X19. The timeout a tool gives the manager, seen from outside. When
    the editor is still running at the timeout, the tool returns success
    false with the message that names the timeout in seconds: the
    timeout_minutes of the call times sixty for [build_run], the two test
    tools and [editor_exec], and 300 for the other tools. The editor is
    still running when the tool returns. *)
Theorem tool_reports_timeout env c w editor :
  validate_unity_project_path (files w) (call_project_path c) = true ->
  get_unity_editor_path config = inr editor ->
  launch_error env = None ->
  run env = Hangs ->
  let r := call_tool config env c w in
  r.1 = Return
          (JObj [("success", JBool false);
                 ("error",
                  JStr ("Unity command timed out after "
                        +:+ pretty (call_timeout c) +:+ " seconds"))]) /\
  alive r.2 (length (processes w)) = true.
Proof.
  intros Hv He Hl Hr r. subst r.
  destruct (call_tool_cases c) as (action & parameters & more & ->).
  rewrite Hv. cbn [negb]. rewrite andb_false_r.
  destruct (execute_times_out env action (call_project_path c) parameters
              (call_timeout c) w editor Hv He Hl Hr)
    as (w' & -> & Ha).
  by split.
Qed.


(** *** Invariants *)







Lemma reachable_registers_no_process w :
  reachable config w -> unity_processes w = ∅.
Proof.
  induction 1 as [tmpdir fs clk
                 | w env action path parameters timeout _ IH
                 | w env c _ IH
                 | w _ IH
                 | w fs _ IH
                 | w pid rc _ IH _]; try done.
  - destruct (execute_frame env action path parameters timeout w)
      as (_ & Hu & _). by rewrite Hu.
  - destruct (call_tool_cases c) as (action & parameters & more & ->).
    destruct (_ && _); [done|].
    destruct (execute_frame env action (call_project_path c) parameters
                (call_timeout c) w) as (_ & Hu & _).
    destruct (execute_unity_command _ _ _ _ _ _ _) as [[result|e] w'];
      simpl in *; congruence.
  - by destruct (cleanup_spec w) as (_ & _ & Hu & _).
Qed.

Lemma cleanup_without_processes w :
  unity_processes w = ∅ ->
  (cleanup w).1 = Return tt /\
  trace (cleanup w).2 = trace w /\
  processes (cleanup w).2 = processes w.
Proof.
  destruct w as [ao up bp os ps fs ck cr tr]. simpl. intros ->.
  unfold cleanup, bind, get, modify, try_except, ret, os_remove, path_exists.
  simpl. rewrite map_to_list_empty. simpl.
  destruct (fs !! bp) as [[]|] eqn:Hb; simpl; rewrite ?Hb; done.
Qed.

(** X24. In no state the manager can reach does [cleanup] terminate
    anything. Whatever calls came before, [cleanup] returns having sent
    no signal, and every process, the running ones included, is as it
    was: the editors that the commands have started and left running
    outlive it. *)
Theorem cleanup_reaches_no_process w :
  reachable config w ->
  (cleanup w).1 = Return tt /\
  trace (cleanup w).2 = trace w /\
  processes (cleanup w).2 = processes w /\
  (forall pid, alive (cleanup w).2 pid = alive w pid).
Proof.
  intros Hr.
  destruct (cleanup_without_processes w (reachable_registers_no_process w Hr))
    as (H1 & H2 & H3).
  split_and!; try done.
  intros pid. unfold alive. by rewrite H3.
Qed.

End Properties.

(** ** Project information *)

Section InfoProperties.

Context {pi : PathInfo}.

(** X21. [get_unity_project_info] leaves the manager as it is: unlike a
    command it creates no record, also when it fails. For a path that
    fails validation it raises ValueError naming the path. Whenever it
    returns, the path has passed validation, so in the dict it returns
    exists and has_assets are always true; has_project_settings alone
    tells something new, whether ProjectSettings/ProjectSettings.asset
    exists. *)
Theorem get_unity_project_info_spec path w :
  let r := get_unity_project_info path w in
  r.2 = w /\
  (validate_unity_project_path (files w) path = false ->
   r.1 = Raise (Exn ValueError ("Invalid Unity project path: " +:+ path))) /\
  (forall info,
     r.1 = Return info ->
     validate_unity_project_path (files w) path = true /\
     exists items,
       info = JObj items /\
       dict_lookup "exists" items = Some (JBool true) /\
       dict_lookup "has_assets" items = Some (JBool true) /\
       dict_lookup "has_project_settings" items
       = Some (JBool
                 (path_exists (files w)
                    (joinpath (joinpath (PathOf path) "ProjectSettings")
                       "ProjectSettings.asset")))).
Proof.
  unfold get_unity_project_info, bind, get, lift, raise, ret. simpl.
  destruct (validate_unity_project_path (files w) path) eqn:Hv; simpl.
  - destruct (last_modified path) as [e|modified]; simpl.
    + split_and!; [done | done |]. intros info [=].
    + split_and!; [done | done |]. intros info [= <-].
      split; [done|]. eexists. split; [reflexivity|].
      unfold validate_unity_project_path in Hv.
      apply andb_true_iff in Hv as [Hv _].
      apply andb_true_iff in Hv as [Hv Ha].
      apply andb_true_iff in Hv as [Hx _].
      simpl. by rewrite Hx, Ha.
  - split_and!; [done | done |]. intros info [=].
Qed.

End InfoProperties.


(** ** The server *)

(** X22. [MCPServer.run] always cleans up, and [cleanup] never hides how
    the server ended. When [run_stdio_async] returns or is interrupted
    from the keyboard, [run] returns; when it raises an exception, [run]
    raises that exception. In each case, in the state the server has
    left, both registries are empty, every process that was registered in
    [unity_processes] has exited, and no file is left at the path of the
    bridge script unless a directory is there. *)
Theorem server_run_cleans_up (run_stdio_async : World -> served * World) w :
  let s := run_stdio_async w in
  let r := MCPServer_run run_stdio_async w in
  r.1 = match s.1 with
        | Stopped | KeyboardInterrupt => Return tt
        | Failed e => Raise e
        end /\
  active_operations r.2 = ∅ /\
  unity_processes r.2 = ∅ /\
  (forall k pid,
     unity_processes s.2 !! k = Some pid -> alive r.2 pid = false) /\
  (files s.2 !! bridge_script_path s.2 <> Some Dir ->
   files r.2 !! bridge_script_path s.2 = None).
Proof.
  intros s r. subst s r.
  unfold MCPServer_run, MCPServer_cleanup, try_finally.
  destruct (run_stdio_async w) as [how w1]. cbn [fst snd].
  destruct (cleanup_spec w1) as (H1 & H2 & H3 & H4 & _ & H6).
  destruct how; destruct (cleanup w1) as [o w2]; cbn [fst snd] in *;
    subst o; by split_and!.
Qed.

(** ** Consequences for every call *)

(** Every status a call assigns is pending, completed or failed: no call
    sets a record to running. *)
Lemma execute_never_assigns_running
    (rt : Runtime) config env action path parameters timeout w :
  let w' :=
    (execute_unity_command config env action path parameters timeout w).2 in
  exists evs,
    trace w' = trace w ++ evs /\
    forall ref s, EvStatus ref s ∈ evs -> s <> "running".
Proof.
  intros w'.
  destruct (execute_frame config env action path parameters timeout w)
    as (_ & _ & _ & _ & _ & _ & _ & evs & Ht & Hb & _).
  fold w' in Ht. eexists. split; [exact Ht|].
  intros ref s Hin. apply elem_of_cons in Hin as [[= -> ->]|Hin]; [done|].
  rewrite Forall_forall in Hb. apply Hb in Hin. simpl in Hin.
  by destruct Hin as [->|[->| ->]].
Qed.

(** No call registers the process it creates: [unity_processes] is after
    the call what it was before. *)
Lemma execute_registers_no_process
    (rt : Runtime) config env action path parameters timeout w :
  unity_processes
    (execute_unity_command config env action path parameters timeout w).2
  = unity_processes w.
Proof.
  by destruct (execute_frame config env action path parameters timeout w)
    as (_ & H & _).
Qed.

(** With nothing registered, [cleanup] leaves every process as it is. *)
Lemma cleanup_skips_untracked w :
  unity_processes w = ∅ -> processes (cleanup w).2 = processes w.
Proof.
  intros He. apply list_eq. intros q.
  apply cleanup_spec. intros k. by rewrite He, lookup_empty.
Qed.

(** ** The scenarios, run *)


(** Scenario B. *)
Lemma execute_timeout_fails_without_terminating_witness :
  exists w' o e,
    scenario_B
    = (Raise (Exn TimeoutError "Unity command timed out after 1 seconds"),
       w') /\
    objects w' !! 0%nat = Some o /\
    status o = "failed" /\
    error o = Some "Unity command timed out after 1 seconds" /\
    end_time o = Some e /\
    trace w' = [EvStatus 0 "pending"; EvSpawn 0; EvStatus 0 "failed"] /\
    alive w' 0 = true.
Proof.
  apply (@execute_timeout_fails_without_terminating cpython linux_config
           editor_hangs "build.run" project (JObj []) 1 fresh_manager
           "/opt/Unity/Editor/Unity").
  - vm_compute; reflexivity.
  - vm_compute; reflexivity.
  - reflexivity.
  - reflexivity.
Defined.

(** C1 fails in scenario B: the call raises the timeout error and the
    process it created is still alive. *)
Lemma timeout_leaves_subprocess_alive :
  ~ (scenario_B.1
     = Raise (Exn TimeoutError "Unity command timed out after 1 seconds")
     -> alive scenario_B.2 0 = false).
Proof.
  intros H.
  assert (Ha : alive scenario_B.2 0 = true) by (vm_compute; reflexivity).
  rewrite H in Ha; [discriminate|]. vm_compute; reflexivity.
Qed.

(** Scenario C. *)
Lemma execute_invalid_project_fails_without_spawn_witness :
  exists w' o e,
    scenario_C
    = (Raise (Exn ValueError "Invalid Unity project path: /nowhere"), w') /\
    processes w' = [] /\
    trace w' = [EvStatus 0 "pending"; EvStatus 0 "failed"] /\
    active_operations w' !! "scene.validate_1700000000.0" = Some 0%nat /\
    objects w' !! 0%nat = Some o /\
    status o = "failed" /\
    error o = Some "Invalid Unity project path: /nowhere" /\
    end_time o = Some e.
Proof.
  apply (@execute_invalid_project_fails_without_spawn cpython linux_config
           (editor_exits 0 EmptyString EmptyString)
           "scene.validate" "/nowhere" (JObj []) 300 fresh_manager).
  vm_compute; reflexivity.
Defined.

(** C2 fails in scenario C: the call raises the error and creates no
    process, but the tracker has gained a record. *)
Lemma invalid_project_leaves_record :
  ~ (scenario_C.1
     = Raise (Exn ValueError "Invalid Unity project path: /nowhere") /\
     active_operations scenario_C.2 = active_operations fresh_manager /\
     processes scenario_C.2 = processes fresh_manager).
Proof.
  intros (_ & H & _).
  assert (Hr : active_operations scenario_C.2
                 !! "scene.validate_1700000000.0" = Some 0%nat)
    by (vm_compute; reflexivity).
  rewrite H in Hr. vm_compute in Hr. discriminate.
Qed.

(** C4 in scenario A: the record is created pending, the process is
    spawned, and the next status is completed; running is never
    assigned. *)
Theorem completed_operation_never_running :
  trace scenario_A.2
    = [EvStatus 0 "pending"; EvSpawn 0; EvStatus 0 "completed"] /\
  status <$> objects scenario_A.2 !! 0%nat = Some "completed" /\
  forall ref, EvStatus ref "running" ∉ trace scenario_A.2.
Proof.
  assert (Ht : trace scenario_A.2
               = [EvStatus 0 "pending"; EvSpawn 0; EvStatus 0 "completed"])
    by (vm_compute; reflexivity).
  split_and!; [exact Ht | vm_compute; reflexivity |].
  intros ref Hin. rewrite Ht in Hin.
  repeat (apply elem_of_cons in Hin as [Hin|Hin]; [discriminate|]).
  by apply not_elem_of_nil in Hin.
Qed.

(** C5 after scenario B: the call has left the editor running and has
    registered it nowhere, so [cleanup] returns with the process still
    alive, having sent no signal. *)
Theorem cleanup_misses_spawned_process :
  alive scenario_B.2 0 = true /\
  unity_processes scenario_B.2 = ∅ /\
  scenario_shutdown.1 = Return tt /\
  alive scenario_shutdown.2 0 = true /\
  trace scenario_shutdown.2
    = [EvStatus 0 "pending"; EvSpawn 0; EvStatus 0 "failed"] /\
  active_operations scenario_shutdown.2 = ∅ /\
  files scenario_shutdown.2 !! bridge_script_path scenario_B.2 = None.
Proof. vm_compute. by repeat split. Qed.




(** C8 fails when the clock does not move between two calls of one
    action: the second gets the id of the first, and its record takes the
    place of the first in the tracker. *)
Lemma operation_ids_collide :
  ~ (id <$> objects scenario_same_tick.2 !! 0%nat
     <> id <$> objects scenario_same_tick.2 !! 1%nat) /\
  length (objects scenario_same_tick.2) = 2%nat /\
  size (active_operations scenario_same_tick.2) = 1%nat /\
  active_operations scenario_same_tick.2 !! "scene.validate_1700000000.0"
    = Some 1%nat.
Proof.
  split_and!.
  - intros H. apply H. vm_compute; reflexivity.
  - vm_compute; reflexivity.
  - vm_compute; reflexivity.
  - vm_compute; reflexivity.
Qed.

(** C9 fails on a directory whose Assets and ProjectSettings are plain
    files: validation accepts it though it holds neither
    subdirectory. *)
Lemma validation_accepts_plain_files :
  ~ (validate_unity_project_path decoy_files project = true <->
     decoy_files !! PathOf project = Some Dir /\
     decoy_files !! joinpath (PathOf project) "Assets" = Some Dir /\
     decoy_files !! joinpath (PathOf project) "ProjectSettings" = Some Dir).
Proof.
  intros [H _].
  assert (Hv : validate_unity_project_path decoy_files project = true)
    by (vm_compute; reflexivity).
  destruct (H Hv) as (_ & Ha & _). vm_compute in Ha. discriminate.
Qed.

(** ** More scenarios, run *)

(** The editor is not installed; and the launch itself times out. *)
Lemma execute_launch_failure_reraised_witness :
  (exists w' o,
     execute editor_missing "scene.validate" project (JObj []) 300
       fresh_manager
     = (Raise
          (Exn FileNotFoundError
             "[Errno 2] No such file or directory: '/opt/Unity/Editor/Unity'"),
        w') /\
     processes w' = [] /\
     trace w' = [EvStatus 0 "pending"; EvStatus 0 "failed"] /\
     objects w' !! 0%nat = Some o /\
     status o = "failed" /\
     error o = Some
       "[Errno 2] No such file or directory: '/opt/Unity/Editor/Unity'") /\
  (exists w' o,
     execute editor_launch_times_out "scene.validate" project (JObj []) 300
       fresh_manager
     = (Raise (Exn TimeoutError "Unity command timed out after 300 seconds"),
        w') /\
     processes w' = [] /\
     trace w' = [EvStatus 0 "pending"; EvStatus 0 "failed"] /\
     objects w' !! 0%nat = Some o /\
     status o = "failed" /\
     error o = Some "Unity command timed out after 300 seconds").
Proof.
  split.
  - apply (@execute_launch_failure_reraised cpython linux_config
             editor_missing "scene.validate" project (JObj []) 300
             fresh_manager "/opt/Unity/Editor/Unity"
             (Exn FileNotFoundError
                "[Errno 2] No such file or directory: '/opt/Unity/Editor/Unity'")).
    + vm_compute; reflexivity.
    + vm_compute; reflexivity.
    + reflexivity.
  - apply (@execute_launch_failure_reraised cpython linux_config
             editor_launch_times_out "scene.validate" project (JObj []) 300
             fresh_manager "/opt/Unity/Editor/Unity"
             (Exn TimeoutError "[Errno 110] Connection timed out")).
    + vm_compute; reflexivity.
    + vm_compute; reflexivity.
    + reflexivity.
Defined.

(** A valid project on a platform without a default editor path. *)
Lemma execute_unsupported_platform_witness :
  exists w' o,
    @execute_unity_command cpython sunos_config
      (editor_exits 0 envelope EmptyString)
      "scene.validate" project (JObj []) 300 fresh_manager
    = (Raise (Exn ValueError "Unsupported platform: SunOS"), w') /\
    processes w' = [] /\
    objects w' !! 0%nat = Some o /\
    status o = "failed" /\
    error o = Some "Unsupported platform: SunOS".
Proof.
  apply (@execute_unsupported_platform cpython sunos_config
           (editor_exits 0 envelope EmptyString)
           "scene.validate" project (JObj []) 300 fresh_manager).
  - vm_compute; reflexivity.
  - left. reflexivity.
  - simpl. discriminate.
  - simpl. discriminate.
  - simpl. discriminate.
Defined.

(** The editor exits 1 and its standard error is the byte FF: the exit
    code is not in what the caller gets. *)
Lemma execute_undecodable_stream_witness :
  exists w' o,
    execute editor_garbles "scene.validate" project (JObj []) 300
      fresh_manager
    = (Raise
         (Exn UnicodeDecodeError
            "'utf-8' codec can't decode byte 0xff in position 0: invalid start byte"),
       w') /\
    objects w' !! 0%nat = Some o /\
    status o = "failed" /\
    error o = Some
      "'utf-8' codec can't decode byte 0xff in position 0: invalid start byte" /\
    result o = None.
Proof.
  apply (@execute_undecodable_stream cpython linux_config
           editor_garbles "scene.validate" project (JObj []) 300
           fresh_manager "/opt/Unity/Editor/Unity" 1 [] [Byte.xff]
           (Exn UnicodeDecodeError
              "'utf-8' codec can't decode byte 0xff in position 0: invalid start byte")).
  - vm_compute; reflexivity.
  - vm_compute; reflexivity.
  - reflexivity.
  - reflexivity.
  - vm_compute; reflexivity.
  - reflexivity.
Defined.

(** A round of the loop of [cleanup] for the editor of scenario_stuck,
    which is running and ignores SIGTERM: both signals are sent. *)
Lemma cleanup_process_escalates_witness :
  (cleanup_process 0 scenario_stuck.2).1 = Return tt /\
  trace (cleanup_process 0 scenario_stuck.2).2
    = trace scenario_stuck.2 ++ [EvTerminate 0; EvKill 0] /\
  state <$> processes (cleanup_process 0 scenario_stuck.2).2 !! 0%nat
    = Some (Exited (-9)).
Proof.
  apply (cleanup_process_escalates 0
           {| argv := ["/opt/Unity/Editor/Unity"; "-batchmode"; "-quit";
                       "-projectPath"; project;
                       "-logFile"; "/tmp/unity_mcp.log";
                       "-executeMethod";
                       "UnityMCP.MCPBridge.ExecuteCommand"];
              cwd := project;
              stdin_data :=
                Some (CPython.str_encode
                        (json_text
                           "{'Action': 'build.run', 'Parameters': {}}"));
              heeds_sigterm := false;
              state := Running |}
           scenario_stuck.2).
  vm_compute; reflexivity.
Defined.

(** The manager of the scenarios, created and cleaned up. *)
Lemma init_then_cleanup_restores_files_witness :
  files fresh_manager !! joinpath (PathOf "/tmp") "unity_mcp_bridge.cs"
    = Some File /\
  files (cleanup fresh_manager).2 = project_files.
Proof.
  destruct (init_then_cleanup_restores_files "/tmp" project_files
              ticking_clock) as (H1 & _ & _ & H4).
  - vm_compute. discriminate.
  - split; [exact H1 | apply H4; vm_compute; reflexivity].
Defined.

(** A path that does not exist, given to [project_scan] and to
    [codegen_apply]. *)
Lemma tool_rejects_invalid_project_witness :
  ((call (editor_exits 0 envelope EmptyString) (scan_call "/nowhere")
      fresh_manager).1
   = Return (JObj [("success", JBool false);
                   ("error", JStr "Invalid Unity project path: /nowhere")]) /\
   processes
     (call (editor_exits 0 envelope EmptyString) (scan_call "/nowhere")
        fresh_manager).2 = [] /\
   (call (editor_exits 0 envelope EmptyString) (scan_call "/nowhere")
      fresh_manager).2 = fresh_manager) /\
  ((call (editor_exits 0 envelope EmptyString) (codegen_call "/nowhere")
      fresh_manager).1
   = Return (JObj [("success", JBool false);
                   ("error", JStr "Invalid Unity project path: /nowhere")]) /\
   processes
     (call (editor_exits 0 envelope EmptyString) (codegen_call "/nowhere")
        fresh_manager).2 = [] /\
   exists o,
     objects
       (call (editor_exits 0 envelope EmptyString) (codegen_call "/nowhere")
          fresh_manager).2 = [] ++ [o] /\
     status o = "failed" /\
     error o = Some "Invalid Unity project path: /nowhere").
Proof.
  split.
  - apply (@tool_rejects_invalid_project cpython linux_config
             (editor_exits 0 envelope EmptyString) (scan_call "/nowhere")
             fresh_manager).
    vm_compute; reflexivity.
  - apply (@tool_rejects_invalid_project cpython linux_config
             (editor_exits 0 envelope EmptyString) (codegen_call "/nowhere")
             fresh_manager).
    vm_compute; reflexivity.
Defined.

(** [codegen_apply] with the bridge of the manager, which does not know
    the action and says so: the tool reports success, with no data. *)
Lemma tool_success_ignores_editor_flag_witness :
  exists more,
    (call (editor_exits 0 unknown_action EmptyString) (codegen_call project)
       fresh_manager).1
    = Return (JObj (("success", JBool true) :: ("data", JNull) :: more)).
Proof.
  apply (@tool_success_ignores_editor_flag cpython linux_config
           (editor_exits 0 unknown_action EmptyString) (codegen_call project)
           fresh_manager "/opt/Unity/Editor/Unity"
           (CPython.str_encode unknown_action)
           (CPython.str_encode EmptyString)
           unknown_action
           [("Success", JBool false);
            ("Error", JStr "Unknown action: codegen.apply");
            ("Data", JNull)]).
  - vm_compute; reflexivity.
  - vm_compute; reflexivity.
  - reflexivity.
  - reflexivity.
  - vm_compute; reflexivity.
  - vm_compute; reflexivity.
Defined.

(** The editor prints a JSON array. *)
Lemma tool_fails_on_output_without_get_witness :
  (call (editor_exits 0 "[1, 2]" EmptyString) (scan_call project)
     fresh_manager).1
  = Return (JObj [("success", JBool false);
                  ("error",
                   JStr "'list' object has no attribute 'get'")]) /\
  exists o,
    objects
      (call (editor_exits 0 "[1, 2]" EmptyString) (scan_call project)
         fresh_manager).2 = [] ++ [o] /\
    status o = "completed" /\ result o = Some (JArr [JInt 1; JInt 2]).
Proof.
  apply (@tool_fails_on_output_without_get cpython linux_config
           (editor_exits 0 "[1, 2]" EmptyString) (scan_call project)
           fresh_manager "/opt/Unity/Editor/Unity"
           (CPython.str_encode "[1, 2]") (CPython.str_encode EmptyString)
           "[1, 2]" (JArr [JInt 1; JInt 2])).
  - vm_compute; reflexivity.
  - vm_compute; reflexivity.
  - reflexivity.
  - reflexivity.
  - vm_compute; reflexivity.
  - vm_compute; reflexivity.
  - intros items. discriminate.
Defined.

(** A build with the default timeout of thirty minutes, and an editor
    that hangs. *)
Lemma tool_reports_timeout_witness :
  (call editor_hangs (build_call project) fresh_manager).1
  = Return (JObj [("success", JBool false);
                  ("error",
                   JStr "Unity command timed out after 1800 seconds")]) /\
  alive (call editor_hangs (build_call project) fresh_manager).2 0 = true.
Proof.
  apply (@tool_reports_timeout cpython linux_config editor_hangs
           (build_call project) fresh_manager "/opt/Unity/Editor/Unity").
  - vm_compute; reflexivity.
  - vm_compute; reflexivity.
  - reflexivity.
  - reflexivity.
Defined.


(** The record of scenario D, under the ticking clock. *)
Lemma execute_times_ordered_witness :
  exists o s t,
    objects scenario_D.2 !! 0%nat = Some o /\
    start_time o = Some s /\ end_time o = Some t /\
    1700000000000000 <= s /\ s <= t.
Proof.
  apply (@execute_times_ordered cpython linux_config
           (editor_exits 1 EmptyString "NullReferenceException")
           "scene.validate" project (JObj []) 300 fresh_manager).
  intros i j Hij. simpl. unfold ticking_clock. lia.
Defined.

(** The call of scenario D on the fresh manager and on the manager that
    scenario B has left, with a record and a running process. *)
Lemma execute_outcome_independent_of_history_witness :
  (execute (editor_exits 1 EmptyString "NullReferenceException")
     "scene.validate" project (JObj []) 300 fresh_manager).1
  = (execute (editor_exits 1 EmptyString "NullReferenceException")
       "scene.validate" project (JObj []) 300 scenario_B.2).1.
Proof.
  apply (@execute_outcome_independent_of_history cpython linux_config
           (editor_exits 1 EmptyString "NullReferenceException")
           "scene.validate" project (JObj []) 300 fresh_manager scenario_B.2).
  vm_compute; reflexivity.
Defined.

(** The information on the project of the scenarios, which has no
    ProjectSettings.asset. *)
Example project_info_of_the_project :
  (@get_unity_project_info project_info project fresh_manager).1
  = Return
      (JObj [("name", JStr "Game");
             ("path", JStr "/work/Game");
             ("exists", JBool true);
             ("has_assets", JBool true);
             ("has_project_settings", JBool false);
             ("last_modified", JStr "2023-11-14T22:13:20")]).
Proof. vm_compute; reflexivity. Qed.


(** Shutdown after scenario B: the editor that hangs is alive before
    [cleanup] and after it. *)
Lemma cleanup_reaches_no_process_witness :
  scenario_shutdown.1 = Return tt /\
  trace scenario_shutdown.2 = trace scenario_B.2 /\
  processes scenario_shutdown.2 = processes scenario_B.2 /\
  (forall pid, alive scenario_shutdown.2 pid = alive scenario_B.2 pid).
Proof.
  apply (@cleanup_reaches_no_process cpython linux_config scenario_B.2).
  apply (@reach_execute cpython linux_config fresh_manager
           editor_hangs "build.run" project (JObj []) 1).
  apply (@reach_init cpython linux_config "/tmp" project_files ticking_clock).
Defined.



(** The editor prints null: the call returns [None], and the record is
    completed with no result, as a record that never got one. *)
Example null_output_completes_without_result :
  (execute (editor_exits 0 "null" EmptyString)
     "scene.validate" project (JObj []) 300 fresh_manager).1
  = Return JNull /\
  (fun o => (status o, result o, error o)) <$>
    objects
      (execute (editor_exits 0 "null" EmptyString)
         "scene.validate" project (JObj []) 300 fresh_manager).2 !! 0%nat
  = Some ("completed", None, None).
Proof. split; vm_compute; reflexivity. Qed.
